(** * The JUCE ComboBox: item store and selection state

    A shallow embedding of [src/gui/components/controls/juce_ComboBox.cpp].
    The widget is single threaded: every member function is modelled as a
    total function on the record of the member variables it reads and
    writes.  Painting, layout, focus and look-and-feel changes do not touch
    the item store, the selection or the label text and are left out; the
    mouse and key handlers only call functions modelled here
    ([showPopup], [setSelectedItemIndex]).

    Conventions:
    - a C++ [int] is a [Z]; the only arithmetic the modelled functions do
      on [int]s is counting real items with [n++], which is bounded by
      [items.size()] (itself an [int]) and therefore never wraps;
    - a [juce::String] is a [string]; [==] on strings is exact comparison;
    - [items] is the [OwnedArray<ItemInfo>], head of the list = index 0,
      [items.add] appends at the end;
    - an [ItemInfo*] handed out by [getItemForId] is a position in
      [items] (together with the pointee), so that writes through the
      pointer update the store in place;
    - [jassert] is compiled out of release builds, which are what is
      modelled; the asserted conditions are given separately as boolean
      functions. *)

From Stdlib Require Import ZArith String Bool Lia.
From stdpp Require Import base list.

Local Open Scope string_scope.
Local Open Scope Z_scope.
Local Open Scope list_scope.

(** ** Strings *)

Definition isEmpty (s : string) : bool :=
  match s with
  | EmptyString => true
  | String _ _ => false
  end.

Definition isNotEmpty (s : string) : bool := negb (isEmpty s).

(** ** ComboBox::ItemInfo *)

Record ItemInfo : Type := mkItemInfo {
  name : string;
  itemId : Z;
  isEnabled : bool;
  isHeading : bool
}.

Definition isSeparator (it : ItemInfo) : bool := isEmpty (name it).

Definition isRealItem (it : ItemInfo) : bool :=
  negb (isHeading it || isEmpty (name it)).

Definition withName (newText : string) (it : ItemInfo) : ItemInfo :=
  mkItemInfo newText (itemId it) (isEnabled it) (isHeading it).

Definition withEnabled (b : bool) (it : ItemInfo) : ItemInfo :=
  mkItemInfo (name it) (itemId it) b (isHeading it).

(** The item appended for a pending separator: [new ItemInfo()] with
    [itemId = 0], [isEnabled = false], [isHeading = false] and the default
    (empty) [name]. *)
Definition separatorItem : ItemInfo := mkItemInfo "" 0 false false.

Definition realItem (newItemText : string) (newItemId : Z) : ItemInfo :=
  mkItemInfo newItemText newItemId true false.

Definition headingItem (headingName : string) : ItemInfo :=
  mkItemInfo headingName 0 true true.

(** ** The text label *)

(** Modelled from the spec: the [Label] class is not part of this file.
    The spec describes it as a sub-widget that "exposes get/set text" and
    an "editable flag"; the two click flags are the ones
    [setEditableText] reads and writes. *)
Record Label : Type := mkLabel {
  labelText : string;
  editableOnSingleClick : bool;
  editableOnDoubleClick : bool
}.

Definition Label_getText (l : Label) : string := labelText l.

Definition Label_setText (newText : string) (l : Label) : Label :=
  mkLabel newText (editableOnSingleClick l) (editableOnDoubleClick l).

Definition Label_isEditable (l : Label) : bool :=
  editableOnSingleClick l || editableOnDoubleClick l.

Definition Label_setEditable (single double : bool) (l : Label) : Label :=
  mkLabel (labelText l) single double.

(** ** The popup menu *)

(** Modelled from the spec: [PopupMenu] is not part of this file.  The
    spec describes the popup menu service as one that "accepts an ordered
    list of (id, text, enabled, checked) entries plus separators/headers";
    a menu is the ordered list of the requests made to it. *)
Inductive MenuEntry : Type :=
  | MenuSeparator
  | MenuSectionHeader (title : string)
  | MenuItem (itemResultId : Z) (itemText : string) (isActive isTicked : bool).

Definition PopupMenu : Type := list MenuEntry.

Definition PopupMenu_addSeparator (m : PopupMenu) : PopupMenu :=
  m ++ [MenuSeparator].

Definition PopupMenu_addSectionHeader (title : string) (m : PopupMenu) : PopupMenu :=
  m ++ [MenuSectionHeader title].

Definition PopupMenu_addItem (id : Z) (text : string) (isActive isTicked : bool)
    (m : PopupMenu) : PopupMenu :=
  m ++ [MenuItem id text isActive isTicked].

(** ** The widget state *)

Record ComboBox : Type := mkComboBox {
  items : list ItemInfo;
  separatorPending : bool;
  currentId : Z;              (* the [Value currentId], read as an [int] *)
  lastCurrentId : Z;
  label : Label;
  menuActive : bool;
  noChoicesMessage : string;
  asyncUpdatePending : bool   (* set by [triggerAsyncUpdate] *)
}.

Definition set_items (l : list ItemInfo) (cb : ComboBox) : ComboBox :=
  mkComboBox l (separatorPending cb) (currentId cb) (lastCurrentId cb)
             (label cb) (menuActive cb) (noChoicesMessage cb) (asyncUpdatePending cb).

Definition set_separatorPending (b : bool) (cb : ComboBox) : ComboBox :=
  mkComboBox (items cb) b (currentId cb) (lastCurrentId cb)
             (label cb) (menuActive cb) (noChoicesMessage cb) (asyncUpdatePending cb).

Definition set_currentId (v : Z) (cb : ComboBox) : ComboBox :=
  mkComboBox (items cb) (separatorPending cb) v (lastCurrentId cb)
             (label cb) (menuActive cb) (noChoicesMessage cb) (asyncUpdatePending cb).

Definition set_lastCurrentId (v : Z) (cb : ComboBox) : ComboBox :=
  mkComboBox (items cb) (separatorPending cb) (currentId cb) v
             (label cb) (menuActive cb) (noChoicesMessage cb) (asyncUpdatePending cb).

Definition set_label (l : Label) (cb : ComboBox) : ComboBox :=
  mkComboBox (items cb) (separatorPending cb) (currentId cb) (lastCurrentId cb)
             l (menuActive cb) (noChoicesMessage cb) (asyncUpdatePending cb).

Definition set_menuActive (b : bool) (cb : ComboBox) : ComboBox :=
  mkComboBox (items cb) (separatorPending cb) (currentId cb) (lastCurrentId cb)
             (label cb) b (noChoicesMessage cb) (asyncUpdatePending cb).

Definition set_noChoicesMessage (s : string) (cb : ComboBox) : ComboBox :=
  mkComboBox (items cb) (separatorPending cb) (currentId cb) (lastCurrentId cb)
             (label cb) (menuActive cb) s (asyncUpdatePending cb).

Definition set_asyncUpdatePending (b : bool) (cb : ComboBox) : ComboBox :=
  mkComboBox (items cb) (separatorPending cb) (currentId cb) (lastCurrentId cb)
             (label cb) (menuActive cb) (noChoicesMessage cb) b.

Definition triggerAsyncUpdate (cb : ComboBox) : ComboBox :=
  set_asyncUpdatePending true cb.

(** The constructor.  [translated] is what [TRANS("(no choices)")]
    returns and [newLabel] the label that the look-and-feel creates in
    [lookAndFeelChanged]; a default [Value] reads as 0. *)
Definition ComboBox_new (translated : string) (newLabel : Label) : ComboBox :=
  mkComboBox [] false 0 0 newLabel false translated false.

Definition setEditableText (isEditable : bool) (cb : ComboBox) : ComboBox :=
  if negb (eqb (editableOnSingleClick (label cb)) isEditable)
     || negb (eqb (editableOnDoubleClick (label cb)) isEditable)
  then set_label (Label_setEditable isEditable isEditable (label cb)) cb
  else cb.

Definition isTextEditable (cb : ComboBox) : bool := Label_isEditable (label cb).

Definition getText (cb : ComboBox) : string := Label_getText (label cb).

(** ** Lookups *)

(** [for (int i = items.size(); --i >= 0;) if (items[i]->itemId == id) return items[i];]
    The tail of the list is searched before its head. *)
Fixpoint lastWithId (id : Z) (l : list ItemInfo) : option (nat * ItemInfo) :=
  match l with
  | [] => None
  | it :: rest =>
      match lastWithId id rest with
      | Some (i, found) => Some (S i, found)
      | None => if itemId it =? id then Some (0%nat, it) else None
      end
  end.

Definition getItemForId (id : Z) (cb : ComboBox) : option (nat * ItemInfo) :=
  if negb (id =? 0) then lastWithId id (items cb) else None.

(** The loop of [getItemForIndex], entered with the counter at [n]. *)
Fixpoint realItemAt (n index : Z) (l : list ItemInfo) : option ItemInfo :=
  match l with
  | [] => None
  | it :: rest =>
      if isRealItem it
      then if n =? index then Some it else realItemAt (n + 1) index rest
      else realItemAt n index rest
  end.

Definition getItemForIndex (index : Z) (cb : ComboBox) : option ItemInfo :=
  realItemAt 0 index (items cb).

(** The loop of [getNumItems]; it runs from the last item down. *)
Fixpoint countRealItems (l : list ItemInfo) : Z :=
  match l with
  | [] => 0
  | it :: rest =>
      let n := countRealItems rest in
      if isRealItem it then n + 1 else n
  end.

Definition getNumItems (cb : ComboBox) : Z := countRealItems (items cb).

Definition getItemText (index : Z) (cb : ComboBox) : string :=
  match getItemForIndex index cb with
  | Some item => name item
  | None => ""
  end.

Definition getItemId (index : Z) (cb : ComboBox) : Z :=
  match getItemForIndex index cb with
  | Some item => itemId item
  | None => 0
  end.

(** The loop of [indexOfItemId], entered with the counter at [n]. *)
Fixpoint indexOfIdFrom (n id : Z) (l : list ItemInfo) : Z :=
  match l with
  | [] => -1
  | it :: rest =>
      if isRealItem it
      then if itemId it =? id then n else indexOfIdFrom (n + 1) id rest
      else indexOfIdFrom n id rest
  end.

Definition indexOfItemId (id : Z) (cb : ComboBox) : Z :=
  indexOfIdFrom 0 id (items cb).

(** ** The item store *)

(** The block shared by [addItem] and [addSectionHeading]: a pending
    separator becomes an item. *)
Definition flushSeparator (cb : ComboBox) : ComboBox :=
  if separatorPending cb
  then set_items (items cb ++ [separatorItem]) (set_separatorPending false cb)
  else cb.

Definition addItem (newItemText : string) (newItemId : Z) (cb : ComboBox) : ComboBox :=
  if isNotEmpty newItemText && negb (newItemId =? 0)
  then
    let cb1 := flushSeparator cb in
    set_items (items cb1 ++ [realItem newItemText newItemId]) cb1
  else cb.


Definition addSeparator (cb : ComboBox) : ComboBox :=
  set_separatorPending (0 <? Z.of_nat (length (items cb))) cb.

Definition addSectionHeading (headingName : string) (cb : ComboBox) : ComboBox :=
  if isNotEmpty headingName
  then
    let cb1 := flushSeparator cb in
    set_items (items cb1 ++ [headingItem headingName]) cb1
  else cb.

Definition setItemEnabled (id : Z) (shouldBeEnabled : bool) (cb : ComboBox) : ComboBox :=
  match getItemForId id cb with
  | Some (p, item) => set_items (<[p := withEnabled shouldBeEnabled item]> (items cb)) cb
  | None => cb
  end.

Definition changeItemText (id : Z) (newText : string) (cb : ComboBox) : ComboBox :=
  match getItemForId id cb with
  | Some (p, item) => set_items (<[p := withName newText item]> (items cb)) cb
  | None => cb
  end.


(** ** The selection *)

Definition getSelectedItemIndex (cb : ComboBox) : Z :=
  let index := indexOfItemId (currentId cb) cb in
  if negb (String.eqb (getText cb) (getItemText index cb)) then -1 else index.

Definition getSelectedId (cb : ComboBox) : Z :=
  match getItemForId (currentId cb) cb with
  | Some (_, item) => if String.eqb (getText cb) (name item) then itemId item else 0
  | None => 0
  end.

Definition setSelectedId (newItemId : Z) (dontSendChangeMessage : bool)
    (cb : ComboBox) : ComboBox :=
  let newItemText :=
    match getItemForId newItemId cb with
    | Some (_, item) => name item
    | None => ""
    end in
  if negb (lastCurrentId cb =? newItemId)
     || negb (String.eqb (Label_getText (label cb)) newItemText)
  then
    let cb1 := if negb dontSendChangeMessage then triggerAsyncUpdate cb else cb in
    let cb2 := set_label (Label_setText newItemText (label cb1)) cb1 in
    set_currentId newItemId (set_lastCurrentId newItemId cb2)
  else cb.

Definition setSelectedItemIndex (index : Z) (dontSendChangeMessage : bool)
    (cb : ComboBox) : ComboBox :=
  setSelectedId (getItemId index cb) dontSendChangeMessage cb.

Definition valueChanged (cb : ComboBox) : ComboBox :=
  if negb (lastCurrentId cb =? currentId cb)
  then setSelectedId (currentId cb) false cb
  else cb.

Definition clear (dontSendChangeMessage : bool) (cb : ComboBox) : ComboBox :=
  let cb1 := set_separatorPending false (set_items [] cb) in
  if negb (Label_isEditable (label cb1))
  then setSelectedItemIndex (-1) dontSendChangeMessage cb1
  else cb1.

(** The loop of [setText]: the last real item whose name is [newText]. *)
Fixpoint lastRealNamed (newText : string) (l : list ItemInfo) : option ItemInfo :=
  match l with
  | [] => None
  | it :: rest =>
      match lastRealNamed newText rest with
      | Some found => Some found
      | None =>
          if isRealItem it && String.eqb (name it) newText then Some it else None
      end
  end.

Definition setText (newText : string) (dontSendChangeMessage : bool)
    (cb : ComboBox) : ComboBox :=
  match lastRealNamed newText (items cb) with
  | Some item => setSelectedId (itemId item) dontSendChangeMessage cb
  | None =>
      let cb1 := set_currentId 0 (set_lastCurrentId 0 cb) in
      if negb (String.eqb (Label_getText (label cb1)) newText)
      then
        let cb2 := set_label (Label_setText newText (label cb1)) cb1 in
        if negb dontSendChangeMessage then triggerAsyncUpdate cb2 else cb2
      else cb1
  end.

Definition setTextWhenNoChoicesAvailable (newMessage : string) (cb : ComboBox) : ComboBox :=
  set_noChoicesMessage newMessage cb.

Definition labelTextChanged (cb : ComboBox) : ComboBox := triggerAsyncUpdate cb.

(** [handleAsyncUpdate] calls the listeners; the widget's own state only
    loses the pending flag. *)
Definition handleAsyncUpdate (cb : ComboBox) : ComboBox :=
  set_asyncUpdatePending false cb.

(** ** The popup *)

Definition menuEntryFor (selectedId : Z) (item : ItemInfo) (menu : PopupMenu) : PopupMenu :=
  if isSeparator item then PopupMenu_addSeparator menu
  else if isHeading item then PopupMenu_addSectionHeader (name item) menu
  else PopupMenu_addItem (itemId item) (name item) (isEnabled item)
                         (itemId item =? selectedId) menu.

(** The [for] loop of [showPopup], from the item at the head of [l]. *)
Fixpoint fillMenu (selectedId : Z) (l : list ItemInfo) (menu : PopupMenu) : PopupMenu :=
  match l with
  | [] => menu
  | item :: rest => fillMenu selectedId rest (menuEntryFor selectedId item menu)
  end.

Definition buildMenu (cb : ComboBox) : PopupMenu :=
  let selectedId := getSelectedId cb in
  let menu := fillMenu selectedId (items cb) [] in
  if (Z.of_nat (length (items cb)) =? 0)
  then PopupMenu_addItem 1 (noChoicesMessage cb) false false menu
  else menu.

(** [showPopup] returns the new state and the menu handed to [showAt], if
    one was built. *)
Definition showPopup (cb : ComboBox) : ComboBox * option PopupMenu :=
  if negb (menuActive cb)
  then (set_menuActive true cb, Some (buildMenu cb))
  else (cb, None).

(** [ComboBox::Callback::modalStateFinished], for a box that still exists. *)
Definition modalStateFinished (returnValue : Z) (cb : ComboBox) : ComboBox :=
  let cb1 := set_menuActive false cb in
  if negb (returnValue =? 0) then setSelectedId returnValue false cb1 else cb1.

(** ** Sequences of calls *)

Inductive Op : Type :=
  | AddItem (newItemText : string) (newItemId : Z)
  | AddSeparator
  | AddSectionHeading (headingName : string)
  | SetItemEnabled (id : Z) (shouldBeEnabled : bool)
  | ChangeItemText (id : Z) (newText : string)
  | Clear (dontSendChangeMessage : bool)
  | SetSelectedId (newItemId : Z) (dontSendChangeMessage : bool)
  | SetSelectedItemIndex (index : Z) (dontSendChangeMessage : bool)
  | SetText (newText : string) (dontSendChangeMessage : bool)
  | SetEditableText (isEditable : bool)
  | SetTextWhenNoChoicesAvailable (newMessage : string)
  | ValueChanged
  | LabelTextChanged
  | HandleAsyncUpdate
  | ShowPopup
  | ModalStateFinished (returnValue : Z).

Definition step (op : Op) (cb : ComboBox) : ComboBox :=
  match op with
  | AddItem t id => addItem t id cb
  | AddSeparator => addSeparator cb
  | AddSectionHeading h => addSectionHeading h cb
  | SetItemEnabled id b => setItemEnabled id b cb
  | ChangeItemText id t => changeItemText id t cb
  | Clear d => clear d cb
  | SetSelectedId id d => setSelectedId id d cb
  | SetSelectedItemIndex i d => setSelectedItemIndex i d cb
  | SetText t d => setText t d cb
  | SetEditableText b => setEditableText b cb
  | SetTextWhenNoChoicesAvailable m => setTextWhenNoChoicesAvailable m cb
  | ValueChanged => valueChanged cb
  | LabelTextChanged => labelTextChanged cb
  | HandleAsyncUpdate => handleAsyncUpdate cb
  | ShowPopup => fst (showPopup cb)
  | ModalStateFinished r => modalStateFinished r cb
  end.

(** [run ops cb]: the calls of [ops] made one after the other, first
    element first. *)
Fixpoint run (ops : list Op) (cb : ComboBox) : ComboBox :=
  match ops with
  | [] => cb
  | op :: rest => run rest (step op cb)
  end.

(** [usage ok ops cb]: every call of [ops] meets the condition [ok] in the
    state it is made in. *)
Fixpoint usage (ok : Op -> ComboBox -> bool) (ops : list Op) (cb : ComboBox) : bool :=
  match ops with
  | [] => true
  | op :: rest => ok op cb && usage ok rest (step op cb)
  end.

(** States of a widget: reached from the constructor by calls that all
    meet [ok]. *)
Inductive reach (ok : Op -> ComboBox -> bool) : ComboBox -> Prop :=
  | reach_new : forall translated newLabel, reach ok (ComboBox_new translated newLabel)
  | reach_step : forall op cb,
      reach ok cb -> ok op cb = true -> reach ok (step op cb).

Definition anyCall (op : Op) (cb : ComboBox) : bool := true.

Definition reachable : ComboBox -> Prop := reach anyCall.

(** The third [jassert] of [addItem] holds: the id is not in the store yet. *)
Definition freshIds (op : Op) (cb : ComboBox) : bool :=
  match op with
  | AddItem _ id =>
      match getItemForId id cb with None => true | Some _ => false end
  | _ => true
  end.

(** No item is renamed to the empty string. *)
Definition nonEmptyRenames (op : Op) (cb : ComboBox) : bool :=
  match op with
  | ChangeItemText _ newText => isNotEmpty newText
  | _ => true
  end.

Definition freshIdsAndNonEmptyRenames (op : Op) (cb : ComboBox) : bool :=
  freshIds op cb && nonEmptyRenames op cb.

(** ** Notions used in the statements *)

(** [currentId] and its shadow copy [lastCurrentId] agree. *)
Definition synced (cb : ComboBox) : Prop := lastCurrentId cb = currentId cb.

(** What [addItem] and [addSectionHeading] append before the new item. *)
Definition pendingSeparator (cb : ComboBox) : list ItemInfo :=
  if separatorPending cb then [separatorItem] else [].

(** An item of the store is a materialised separator, a section heading,
    or an item appended by [addItem]. *)
Definition wellFormedItem (it : ItemInfo) : Prop :=
  it = separatorItem
  \/ (isHeading it = true /\ itemId it = 0 /\ name it <> "")
  \/ (isHeading it = false /\ itemId it <> 0).

(** A widget fresh from its constructor, with an empty label that is not
    editable. *)
Definition freshBox : ComboBox :=
  ComboBox_new "(no choices)" (mkLabel "" false false).

(** The calls that fill the store, with arguments [addItem] accepts. *)
Definition isBuildCall (op : Op) : bool :=
  match op with
  | AddItem t id => isNotEmpty t && negb (id =? 0)
  | AddSeparator => true
  | AddSectionHeading _ => true
  | _ => false
  end.

(** The ids passed to [addItem] by a sequence of calls, in order. *)
Fixpoint addedIds (ops : list Op) : list Z :=
  match ops with
  | [] => []
  | AddItem _ id :: rest => id :: addedIds rest
  | _ :: rest => addedIds rest
  end.

(** The single request [showPopup] makes to the menu for [item]. *)
Definition menuEntryOf (selectedId : Z) (item : ItemInfo) : MenuEntry :=
  if isSeparator item then MenuSeparator
  else if isHeading item then MenuSectionHeader (name item)
  else MenuItem (itemId item) (name item) (isEnabled item)
                (itemId item =? selectedId).

(** Example call sequences. *)
Definition paletteCalls : list Op :=
  [AddItem "Red" 1; AddItem "Green" 2; AddSeparator; AddItem "Blue" 3].

Definition renamedCalls : list Op :=
  [AddItem "Red" 1; AddItem "Green" 2; SetSelectedId 1 false;
   ChangeItemText 1 "Rouge"; ChangeItemText 2 "Red"].

(** The invariant of the item store: separators and headings have id 0;
    real items have a non-empty name and a non-zero id that no other real
    item has. *)
Definition storeInvariant (l : list ItemInfo) : Prop :=
  (forall it, it ∈ l -> isSeparator it = true \/ isHeading it = true -> itemId it = 0)
  /\ (forall it, it ∈ l -> isRealItem it = true -> name it <> "" /\ itemId it <> 0)
  /\ (forall i j a b,
        l !! i = Some a -> l !! j = Some b ->
        isRealItem a = true -> isRealItem b = true ->
        i <> j -> itemId a <> itemId b).

(** No two positions of the store hold the same non-zero id. *)
Definition uniqueIds (l : list ItemInfo) : Prop :=
  forall i j a b,
    l !! i = Some a -> l !! j = Some b ->
    itemId a = itemId b -> itemId a <> 0 -> i = j.

(** An item with a non-zero id has a name. *)
Definition namedItem (it : ItemInfo) : Prop := itemId it <> 0 -> name it <> "".

Definition duplicateCalls : list Op := [AddItem "a" 1; AddItem "b" 1].

(** Where the separators of a store are. *)
Definition beginsWithSeparator (l : list ItemInfo) : bool :=
  match l with
  | it :: _ => isSeparator it
  | [] => false
  end.

Fixpoint hasAdjacentSeparators (l : list ItemInfo) : bool :=
  match l with
  | a :: rest => (isSeparator a && beginsWithSeparator rest) || hasAdjacentSeparators rest
  | [] => false
  end.

Fixpoint endsWithSeparator (l : list ItemInfo) : bool :=
  match l with
  | [] => false
  | it :: rest =>
      match rest with
      | [] => isSeparator it
      | _ :: _ => endsWithSeparator rest
      end
  end.

(** No separator at either end of the store, no two in a row, and a
    separator is pending only behind an item. *)
Definition separatorsInPlace (cb : ComboBox) : Prop :=
  beginsWithSeparator (items cb) = false
  /\ hasAdjacentSeparators (items cb) = false
  /\ endsWithSeparator (items cb) = false
  /\ (separatorPending cb = true -> items cb <> []).

Definition emptyRenameCalls : list Op := [AddItem "a" 1; ChangeItemText 1 ""].

Definition emptyRenameAfterSeparatorCalls : list Op :=
  [AddItem "a" 1; AddSeparator; AddItem "b" 2; ChangeItemText 2 ""].

Definition selectEmptyRenamedCalls : list Op :=
  [AddItem "a" 1; ChangeItemText 1 ""; SetSelectedId 1 false].

(** ** Keys *)

(** Modelled from the spec: [KeyPress] is not part of this file.  The
    spec names the keyboard as a source of the "user input" that drives
    the selection; a key press is given by what [keyPressed] asks of it,
    the answers of [isKeyCode] for the five key codes. *)
Record KeyPress : Type := mkKeyPress {
  isUpKey : bool;
  isLeftKey : bool;
  isDownKey : bool;
  isRightKey : bool;
  isReturnKey : bool
}.

(** [keyPressed] returns the new state and whether the key was used. *)
Definition keyPressed (key : KeyPress) (cb : ComboBox) : ComboBox * bool :=
  if isUpKey key || isLeftKey key
  then (setSelectedItemIndex (Z.max 0 (getSelectedItemIndex cb - 1)) false cb, true)
  else if isDownKey key || isRightKey key
  then (setSelectedItemIndex (Z.min (getSelectedItemIndex cb + 1) (getNumItems cb - 1))
                             false cb, true)
  else if isReturnKey key
  then (fst (showPopup cb), true)
  else (cb, false).

(** ** More notions used in the statements *)

(** The real items of a store, in order: what the index-based functions
    see. *)
Fixpoint realItems (l : list ItemInfo) : list ItemInfo :=
  match l with
  | [] => []
  | it :: rest => if isRealItem it then it :: realItems rest else realItems rest
  end.

(** The arguments of the [addItem] calls of a sequence, in order. *)
Fixpoint addedItems (ops : list Op) : list (string * Z) :=
  match ops with
  | [] => []
  | AddItem t id :: rest => (t, id) :: addedItems rest
  | _ :: rest => addedItems rest
  end.

(** Two items that differ at most in their enabled flag. *)
Definition sameButEnabled (a b : ItemInfo) : Prop :=
  name a = name b /\ itemId a = itemId b /\ isHeading a = isHeading b.

Definition arrowDown : KeyPress := mkKeyPress false false true false false.
Definition arrowUp : KeyPress := mkKeyPress true false false false false.
Definition otherKey : KeyPress := mkKeyPress false false false false false.

(** ** The bound value and the look-up of a name *)

(** Modelled from the spec: [currentId] is "a bound value with its own
    change notification"; the code that holds the [Value] is not part of
    this file.  A holder writes [v] into it; the widget is told later,
    through [valueChanged], and until then [lastCurrentId] keeps the old
    id. *)
Definition valueWritten (v : Z) (cb : ComboBox) : ComboBox := set_currentId v cb.

(** The text [setSelectedId] looks up for an id: the name of the item
    that [getItemForId] returns, or the empty string. *)
Definition nameForId (x : Z) (cb : ComboBox) : string :=
  match getItemForId x cb with
  | Some (_, item) => name item
  | None => ""
  end.

(** A store in which no non-zero id occurs twice and every item has one
    of the three shapes the add functions give. *)
Definition tidyStore (l : list ItemInfo) : Prop :=
  uniqueIds l /\ Forall wellFormedItem l.

(** The widget after [setSelectedId (1)] and a write of 2 to the bound
    value that [valueChanged] has not yet seen. *)
Definition unsyncedCalls : list Op :=
  [AddItem "Red" 1; AddItem "Green" 2; SetSelectedId 1 false].

Definition unsyncedBox : ComboBox := valueWritten 2 (run unsyncedCalls freshBox).

Definition sameNameCalls : list Op := [AddItem "x" 1; AddItem "x" 2].

(** Goes through the members of a store that is given explicitly and
    closes each case by computation. *)
Ltac store_cases H :=
  repeat (apply elem_of_cons in H; destruct H as [H|H];
          [subst; simpl in *; try discriminate; try congruence|]);
  try (apply elem_of_nil in H; destruct H).

(** * Properties *)

(** ** Strings *)

Lemma isEmpty_true (s : string) : isEmpty s = true <-> s = "".
Proof. destruct s; simpl; split; intros H; congruence. Qed.

Lemma isEmpty_false (s : string) : isEmpty s = false <-> s <> "".
Proof. destruct s; simpl; split; intros H; congruence. Qed.

Lemma isRealItem_true (it : ItemInfo) :
  isRealItem it = true <-> isHeading it = false /\ name it <> "".
Proof.
  unfold isRealItem. rewrite negb_true_iff, orb_false_iff, isEmpty_false. tauto.
Qed.

(** ** Lookup by id *)

Lemma lastWithId_Some (id : Z) (l : list ItemInfo) (p : nat) (it : ItemInfo) :
  lastWithId id l = Some (p, it) -> l !! p = Some it /\ itemId it = id.
Proof.
  revert p it. induction l as [|x l IH]; intros p it H; simpl in H; [discriminate|].
  destruct (lastWithId id l) as [[i found]|] eqn:E.
  - inversion H; subst. destruct (IH _ _ eq_refl) as [Hl Hid]. split; assumption.
  - destruct (Z.eqb_spec (itemId x) id) as [Hx|Hx]; [|discriminate].
    inversion H; subst. split; reflexivity.
Qed.

Lemma lastWithId_None (id : Z) (l : list ItemInfo) :
  lastWithId id l = None <-> (forall it, it ∈ l -> itemId it <> id).
Proof.
  induction l as [|x l IH]; simpl.
  - split; [intros _ it Hin; inversion Hin | reflexivity].
  - destruct (lastWithId id l) as [[i found]|] eqn:E.
    + split; [discriminate|]. intros H.
      assert (Hc : Some (i, found) = None).
      { apply IH. intros it Hin. apply H, elem_of_cons. right. exact Hin. }
      discriminate Hc.
    + destruct (Z.eqb_spec (itemId x) id) as [Hx|Hx].
      * split; [discriminate|]. intros H. exfalso.
        apply (H x); [apply elem_of_cons; left; reflexivity | exact Hx].
      * split; [|reflexivity]. intros _ it Hin.
        apply elem_of_cons in Hin as [->|Hin]; [exact Hx|].
        exact (proj1 IH eq_refl it Hin).
Qed.

Lemma lastWithId_snoc (id : Z) (l : list ItemInfo) (x : ItemInfo) :
  lastWithId id (l ++ [x]) =
  if itemId x =? id then Some (length l, x) else lastWithId id l.
Proof.
  induction l as [|y l IH]; simpl.
  - reflexivity.
  - rewrite IH. destruct (itemId x =? id); [reflexivity|].
    destruct (lastWithId id l) as [[i found]|]; reflexivity.
Qed.

Lemma getItemForId_Some (id : Z) (cb : ComboBox) (p : nat) (it : ItemInfo) :
  getItemForId id cb = Some (p, it) ->
  items cb !! p = Some it /\ itemId it = id /\ id <> 0.
Proof.
  unfold getItemForId. destruct (Z.eqb_spec id 0) as [H0|H0]; simpl; [discriminate|].
  intros H. apply lastWithId_Some in H as [Hl Hid]. auto.
Qed.

Lemma getItemForId_None (id : Z) (cb : ComboBox) :
  getItemForId id cb = None <-> id = 0 \/ (forall it, it ∈ items cb -> itemId it <> id).
Proof.
  unfold getItemForId. destruct (Z.eqb_spec id 0) as [H0|H0]; simpl.
  - split; auto.
  - rewrite lastWithId_None. split; [auto|]. intros [H|H]; [contradiction | exact H].
Qed.

Lemma getItemForId_known (id : Z) (cb : ComboBox) (it : ItemInfo) :
  id <> 0 -> it ∈ items cb -> itemId it = id ->
  exists p found, getItemForId id cb = Some (p, found).
Proof.
  intros H0 Hin Hid. destruct (getItemForId id cb) as [[p found]|] eqn:E; [eauto|].
  apply getItemForId_None in E as [E|E]; [contradiction|].
  exfalso. exact (E it Hin Hid).
Qed.

(** Only the list of items matters to a lookup. *)
Lemma getItemForId_items (id : Z) (cb1 cb2 : ComboBox) :
  items cb1 = items cb2 -> getItemForId id cb1 = getItemForId id cb2.
Proof. unfold getItemForId. intros ->. reflexivity. Qed.

(** ** What the selection functions leave alone *)

Lemma setSelectedId_items (x : Z) (d : bool) (cb : ComboBox) :
  items (setSelectedId x d cb) = items cb.
Proof.
  unfold setSelectedId.
  destruct (negb (lastCurrentId cb =? x) || _); [|reflexivity].
  destruct d; reflexivity.
Qed.

Lemma setSelectedId_separatorPending (x : Z) (d : bool) (cb : ComboBox) :
  separatorPending (setSelectedId x d cb) = separatorPending cb.
Proof.
  unfold setSelectedId.
  destruct (negb (lastCurrentId cb =? x) || _); [|reflexivity].
  destruct d; reflexivity.
Qed.

Lemma setSelectedId_editable (x : Z) (d : bool) (cb : ComboBox) :
  isTextEditable (setSelectedId x d cb) = isTextEditable cb.
Proof.
  unfold setSelectedId.
  destruct (negb (lastCurrentId cb =? x) || _); [|reflexivity].
  destruct d; reflexivity.
Qed.

Lemma setText_items (t : string) (d : bool) (cb : ComboBox) :
  items (setText t d cb) = items cb.
Proof.
  unfold setText. destruct (lastRealNamed t (items cb)).
  - apply setSelectedId_items.
  - simpl. destruct (negb _); [destruct d|]; reflexivity.
Qed.

Lemma setText_separatorPending (t : string) (d : bool) (cb : ComboBox) :
  separatorPending (setText t d cb) = separatorPending cb.
Proof.
  unfold setText. destruct (lastRealNamed t (items cb)).
  - apply setSelectedId_separatorPending.
  - simpl. destruct (negb _); [destruct d|]; reflexivity.
Qed.

Lemma setText_editable (t : string) (d : bool) (cb : ComboBox) :
  isTextEditable (setText t d cb) = isTextEditable cb.
Proof.
  unfold setText. destruct (lastRealNamed t (items cb)).
  - apply setSelectedId_editable.
  - simpl. destruct (negb _); [destruct d|]; reflexivity.
Qed.

(** ** [currentId] and its shadow copy *)

Lemma setSelectedId_synced (x : Z) (d : bool) (cb : ComboBox) :
  synced cb -> synced (setSelectedId x d cb).
Proof.
  unfold synced, setSelectedId. intros H.
  destruct (negb (lastCurrentId cb =? x) || _); [|exact H].
  destruct d; reflexivity.
Qed.

Lemma setText_synced (t : string) (d : bool) (cb : ComboBox) :
  synced cb -> synced (setText t d cb).
Proof.
  unfold setText. intros H. destruct (lastRealNamed t (items cb)).
  - apply setSelectedId_synced, H.
  - unfold synced. simpl. destruct (negb _); [destruct d|]; reflexivity.
Qed.

Lemma step_synced (op : Op) (cb : ComboBox) : synced cb -> synced (step op cb).
Proof.
  intros H. destruct op; simpl.
  - unfold addItem, flushSeparator.
    destruct (_ && _); [destruct (separatorPending cb)|]; exact H.
  - exact H.
  - unfold addSectionHeading, flushSeparator.
    destruct (isNotEmpty _); [destruct (separatorPending cb)|]; exact H.
  - unfold setItemEnabled. destruct (getItemForId _ _) as [[p it]|]; exact H.
  - unfold changeItemText. destruct (getItemForId _ _) as [[p it]|]; exact H.
  - unfold clear. destruct (negb _); [|exact H].
    unfold setSelectedItemIndex. apply setSelectedId_synced. exact H.
  - apply setSelectedId_synced, H.
  - unfold setSelectedItemIndex. apply setSelectedId_synced, H.
  - apply setText_synced, H.
  - unfold setEditableText. destruct (_ || _); exact H.
  - exact H.
  - unfold valueChanged. destruct (negb _); [apply setSelectedId_synced|]; exact H.
  - exact H.
  - exact H.
  - unfold showPopup. destruct (negb _); exact H.
  - unfold modalStateFinished.
    destruct (negb _); [apply setSelectedId_synced|]; exact H.
Qed.

Lemma reach_weaken (ok : Op -> ComboBox -> bool) (cb : ComboBox) :
  reach ok cb -> reachable cb.
Proof.
  induction 1 as [translated newLabel | op cb Hr IH Hok].
  - apply reach_new.
  - apply reach_step; [exact IH | reflexivity].
Qed.

Lemma reach_run (ok : Op -> ComboBox -> bool) (ops : list Op) (cb : ComboBox) :
  reach ok cb -> usage ok ops cb = true -> reach ok (run ops cb).
Proof.
  revert cb. induction ops as [|op ops IH]; intros cb Hr Hu; simpl in *.
  - exact Hr.
  - apply andb_true_iff in Hu as [Hok Hu].
    apply IH; [apply reach_step; assumption | exact Hu].
Qed.

Lemma reachable_synced (cb : ComboBox) : reachable cb -> synced cb.
Proof.
  induction 1 as [translated newLabel | op cb Hr IH Hok].
  - reflexivity.
  - apply step_synced, IH.
Qed.

(** ** The store after each call *)

Lemma flushSeparator_items (cb : ComboBox) :
  items (flushSeparator cb) = items cb ++ pendingSeparator cb.
Proof.
  unfold flushSeparator, pendingSeparator.
  destruct (separatorPending cb); simpl; [reflexivity|].
  symmetry. apply app_nil_r.
Qed.

Lemma clear_items (d : bool) (cb : ComboBox) : items (clear d cb) = [].
Proof.
  unfold clear, setSelectedItemIndex.
  destruct (negb _); [rewrite setSelectedId_items|]; reflexivity.
Qed.

Lemma clear_separatorPending (d : bool) (cb : ComboBox) :
  separatorPending (clear d cb) = false.
Proof.
  unfold clear, setSelectedItemIndex.
  destruct (negb _); [rewrite setSelectedId_separatorPending|]; reflexivity.
Qed.

Lemma step_items (op : Op) (cb : ComboBox) :
  items (step op cb) =
  match op with
  | AddItem t id =>
      if isNotEmpty t && negb (id =? 0)
      then items cb ++ pendingSeparator cb ++ [realItem t id]
      else items cb
  | AddSectionHeading h =>
      if isNotEmpty h
      then items cb ++ pendingSeparator cb ++ [headingItem h]
      else items cb
  | SetItemEnabled id b =>
      match getItemForId id cb with
      | Some (p, item) => <[p := withEnabled b item]> (items cb)
      | None => items cb
      end
  | ChangeItemText id t =>
      match getItemForId id cb with
      | Some (p, item) => <[p := withName t item]> (items cb)
      | None => items cb
      end
  | Clear _ => []
  | _ => items cb
  end.
Proof.
  destruct op; simpl; try reflexivity.
  - unfold addItem. destruct (_ && _); [|reflexivity].
    simpl. rewrite flushSeparator_items, <- app_assoc. reflexivity.
  - unfold addSectionHeading. destruct (isNotEmpty _); [|reflexivity].
    simpl. rewrite flushSeparator_items, <- app_assoc. reflexivity.
  - unfold setItemEnabled. destruct (getItemForId _ _) as [[p it]|]; reflexivity.
  - unfold changeItemText. destruct (getItemForId _ _) as [[p it]|]; reflexivity.
  - apply clear_items.
  - apply setSelectedId_items.
  - apply setSelectedId_items.
  - apply setText_items.
  - unfold setEditableText. destruct (_ || _); reflexivity.
  - unfold valueChanged. destruct (negb _); [apply setSelectedId_items | reflexivity].
  - unfold showPopup. destruct (negb _); reflexivity.
  - unfold modalStateFinished.
    destruct (negb _); [rewrite setSelectedId_items|]; reflexivity.
Qed.

Lemma step_separatorPending (op : Op) (cb : ComboBox) :
  separatorPending (step op cb) =
  match op with
  | AddItem t id =>
      if isNotEmpty t && negb (id =? 0) then false else separatorPending cb
  | AddSeparator => 0 <? Z.of_nat (length (items cb))
  | AddSectionHeading h =>
      if isNotEmpty h then false else separatorPending cb
  | Clear _ => false
  | _ => separatorPending cb
  end.
Proof.
  destruct op; simpl; try reflexivity.
  - unfold addItem, flushSeparator.
    destruct (_ && _); [destruct (separatorPending cb) eqn:E|]; simpl; auto.
  - unfold addSectionHeading, flushSeparator.
    destruct (isNotEmpty _); [destruct (separatorPending cb) eqn:E|]; simpl; auto.
  - unfold setItemEnabled. destruct (getItemForId _ _) as [[p it]|]; reflexivity.
  - unfold changeItemText. destruct (getItemForId _ _) as [[p it]|]; reflexivity.
  - apply clear_separatorPending.
  - apply setSelectedId_separatorPending.
  - apply setSelectedId_separatorPending.
  - apply setText_separatorPending.
  - unfold setEditableText. destruct (_ || _); reflexivity.
  - unfold valueChanged.
    destruct (negb _); [apply setSelectedId_separatorPending | reflexivity].
  - unfold showPopup. destruct (negb _); reflexivity.
  - unfold modalStateFinished.
    destruct (negb _); [rewrite setSelectedId_separatorPending|]; reflexivity.
Qed.

(** ** The shape of the items in the store *)

Lemma pendingSeparator_wellFormed (cb : ComboBox) :
  Forall wellFormedItem (pendingSeparator cb).
Proof.
  unfold pendingSeparator. destruct (separatorPending cb); [|constructor].
  constructor; [|constructor]. left. reflexivity.
Qed.

Lemma wellFormedItem_update (f : ItemInfo -> ItemInfo) (it : ItemInfo) :
  isHeading (f it) = isHeading it -> itemId (f it) = itemId it ->
  itemId it <> 0 -> wellFormedItem it -> wellFormedItem (f it).
Proof.
  intros Hh Hi Hnz [-> | [[_ [H0 _]] | [Hnh _]]].
  - simpl in Hnz. contradiction.
  - contradiction.
  - right. right. rewrite Hh, Hi. auto.
Qed.

Lemma step_wellFormed (op : Op) (cb : ComboBox) :
  Forall wellFormedItem (items cb) -> Forall wellFormedItem (items (step op cb)).
Proof.
  intros H. rewrite step_items. destruct op; try exact H.
  - destruct (isNotEmpty newItemText && negb (newItemId =? 0)) eqn:G; [|exact H].
    apply andb_true_iff in G as [_ G]. apply negb_true_iff, Z.eqb_neq in G.
    apply Forall_app. split; [exact H|].
    apply Forall_app. split; [apply pendingSeparator_wellFormed|].
    constructor; [|constructor]. right. right. simpl. auto.
  - destruct (isNotEmpty headingName) eqn:G; [|exact H].
    apply negb_true_iff, isEmpty_false in G.
    apply Forall_app. split; [exact H|].
    apply Forall_app. split; [apply pendingSeparator_wellFormed|].
    constructor; [|constructor]. right. left. simpl. auto.
  - destruct (getItemForId id cb) as [[p it]|] eqn:E; [|exact H].
    apply getItemForId_Some in E as (Hp & Hid & Hnz).
    apply Forall_insert; [exact H|].
    apply (wellFormedItem_update (withEnabled shouldBeEnabled)); try reflexivity.
    + congruence.
    + exact (proj1 (Forall_lookup _ _) H _ _ Hp).
  - destruct (getItemForId id cb) as [[p it]|] eqn:E; [|exact H].
    apply getItemForId_Some in E as (Hp & Hid & Hnz).
    apply Forall_insert; [exact H|].
    apply (wellFormedItem_update (withName newText)); try reflexivity.
    + congruence.
    + exact (proj1 (Forall_lookup _ _) H _ _ Hp).
  - constructor.
Qed.

Lemma reachable_wellFormed (cb : ComboBox) :
  reachable cb -> Forall wellFormedItem (items cb).
Proof.
  induction 1 as [translated newLabel | op cb Hr IH Hok].
  - constructor.
  - apply step_wellFormed, IH.
Qed.

Lemma wellFormed_real_nonzero (it : ItemInfo) :
  wellFormedItem it -> isRealItem it = true -> itemId it <> 0.
Proof.
  intros [-> | [[Hh _] | [_ Hnz]]] Hreal.
  - discriminate.
  - unfold isRealItem in Hreal. rewrite Hh in Hreal. discriminate.
  - exact Hnz.
Qed.

Lemma wellFormed_heading_zero (it : ItemInfo) :
  wellFormedItem it -> isHeading it = true -> itemId it = 0 /\ name it <> "".
Proof.
  intros [-> | [[_ H] | [Hh _]]] Hhead.
  - discriminate.
  - exact H.
  - congruence.
Qed.

(** ** Lookup by name *)

Lemma lastRealNamed_Some (t : string) (l : list ItemInfo) (it : ItemInfo) :
  lastRealNamed t l = Some it -> it ∈ l /\ isRealItem it = true /\ name it = t.
Proof.
  induction l as [|x l IH]; simpl; [discriminate|].
  destruct (lastRealNamed t l) as [found|].
  - intros H. inversion H; subst. destruct (IH eq_refl) as (Hin & Hr & Hn).
    split; [apply elem_of_cons; right; exact Hin | auto].
  - destruct (isRealItem x && (name x =? t)%string) eqn:G; [|discriminate].
    intros H. inversion H; subst.
    apply andb_true_iff in G as [Hr Hn]. apply String.eqb_eq in Hn.
    split; [apply elem_of_cons; left; reflexivity | auto].
Qed.

Lemma lastRealNamed_None (t : string) (l : list ItemInfo) :
  lastRealNamed t l = None <->
  (forall it, it ∈ l -> isRealItem it = true -> name it <> t).
Proof.
  induction l as [|x l IH]; simpl.
  - split; [intros _ it Hin; inversion Hin | reflexivity].
  - destruct (lastRealNamed t l) as [found|].
    + split; [discriminate|]. intros H.
      assert (Hc : Some found = None).
      { apply IH. intros it Hin. apply H, elem_of_cons. right. exact Hin. }
      discriminate Hc.
    + destruct (isRealItem x && (name x =? t)%string) eqn:G.
      * split; [discriminate|]. intros H. exfalso.
        apply andb_true_iff in G as [Hr Hn]. apply String.eqb_eq in Hn.
        apply (H x); [apply elem_of_cons; left; reflexivity | exact Hr | exact Hn].
      * split; [|reflexivity]. intros _ it Hin Hr Hn.
        apply elem_of_cons in Hin as [->|Hin].
        -- rewrite Hr in G. simpl in G. apply String.eqb_neq in G. contradiction.
        -- exact (proj1 IH eq_refl it Hin Hr Hn).
Qed.

(** ** Selecting by id *)

Lemma setSelectedId_getText (x : Z) (d : bool) (cb : ComboBox) :
  getText (setSelectedId x d cb) =
  match getItemForId x cb with
  | Some (_, item) => name item
  | None => ""
  end.
Proof.
  unfold setSelectedId, getText.
  destruct (negb (lastCurrentId cb =? x)); simpl.
  - destruct d; reflexivity.
  - destruct (String.eqb_spec (Label_getText (label cb))
               match getItemForId x cb with
               | Some (_, item) => name item
               | None => ""
               end) as [Heq|Hne]; simpl.
    + exact Heq.
    + destruct d; reflexivity.
Qed.

Lemma setSelectedId_currentId (x : Z) (d : bool) (cb : ComboBox) :
  synced cb -> currentId (setSelectedId x d cb) = x.
Proof.
  unfold synced, setSelectedId. intros Hs.
  destruct (Z.eqb_spec (lastCurrentId cb) x) as [Heq|Hne]; simpl.
  - destruct (negb _); [destruct d; reflexivity | congruence].
  - destruct d; reflexivity.
Qed.

Lemma setSelectedId_getSelectedId (x : Z) (d : bool) (cb : ComboBox) :
  synced cb ->
  getSelectedId (setSelectedId x d cb) =
  match getItemForId x cb with
  | Some _ => x
  | None => 0
  end.
Proof.
  intros Hs. unfold getSelectedId.
  rewrite (setSelectedId_currentId x d cb Hs), setSelectedId_getText.
  rewrite (getItemForId_items x (setSelectedId x d cb) cb (setSelectedId_items x d cb)).
  destruct (getItemForId x cb) as [[p it]|] eqn:E; [|reflexivity].
  rewrite String.eqb_refl. apply getItemForId_Some in E. tauto.
Qed.

Lemma setText_free (t : string) (d : bool) (cb : ComboBox) :
  lastRealNamed t (items cb) = None ->
  currentId (setText t d cb) = 0 /\ lastCurrentId (setText t d cb) = 0
  /\ getText (setText t d cb) = t.
Proof.
  intros E. unfold setText, getText. rewrite E. simpl.
  destruct (String.eqb_spec (Label_getText (label cb)) t) as [Heq|Hne]; simpl.
  - auto.
  - destruct d; simpl; auto.
Qed.

Lemma getSelectedId_none (cb : ComboBox) : currentId cb = 0 -> getSelectedId cb = 0.
Proof. unfold getSelectedId, getItemForId. intros ->. reflexivity. Qed.

(** ** Lookup by index *)

Lemma countRealItems_nonneg (l : list ItemInfo) : 0 <= countRealItems l.
Proof.
  induction l as [|x l IH]; simpl; [lia|]. destruct (isRealItem x); lia.
Qed.

Lemma countRealItems_app (l1 l2 : list ItemInfo) :
  countRealItems (l1 ++ l2) = countRealItems l1 + countRealItems l2.
Proof.
  induction l1 as [|x l1 IH]; simpl; [lia|].
  rewrite IH. destruct (isRealItem x); lia.
Qed.

Lemma realItemAt_below (l : list ItemInfo) (n index : Z) :
  index < n -> realItemAt n index l = None.
Proof.
  revert n. induction l as [|x l IH]; intros n Hlt; simpl; [reflexivity|].
  destruct (isRealItem x).
  - destruct (Z.eqb_spec n index) as [Heq|Hne]; [lia|]. apply IH. lia.
  - apply IH. exact Hlt.
Qed.

Lemma indexOfIdFrom_absent (l : list ItemInfo) (n id : Z) :
  (forall x, x ∈ l -> isRealItem x = true -> itemId x <> id) ->
  indexOfIdFrom n id l = -1.
Proof.
  revert n. induction l as [|x l IH]; intros n H; simpl; [reflexivity|].
  assert (Hl : forall y, y ∈ l -> isRealItem y = true -> itemId y <> id).
  { intros y Hy. apply H, elem_of_cons. right. exact Hy. }
  destruct (isRealItem x) eqn:Hr; [|apply IH, Hl].
  destruct (Z.eqb_spec (itemId x) id) as [Heq|Hne]; [|apply IH, Hl].
  exfalso. apply (H x); [apply elem_of_cons; left; reflexivity | exact Hr | exact Heq].
Qed.

(** The first real item with a given id: the index reported for it is the
    number of real items before it. *)
Lemma indexOfIdFrom_first (l1 l2 : list ItemInfo) (item : ItemInfo) (n id : Z) :
  isRealItem item = true -> itemId item = id ->
  (forall x, x ∈ l1 -> isRealItem x = true -> itemId x <> id) ->
  indexOfIdFrom n id (l1 ++ item :: l2) = n + countRealItems l1.
Proof.
  intros Hreal Hid. revert n.
  induction l1 as [|x l1 IH]; intros n H; simpl.
  - rewrite Hreal. apply Z.eqb_eq in Hid. rewrite Hid. lia.
  - assert (Hl : forall y, y ∈ l1 -> isRealItem y = true -> itemId y <> id).
    { intros y Hy. apply H, elem_of_cons. right. exact Hy. }
    destruct (isRealItem x) eqn:Hr.
    + destruct (Z.eqb_spec (itemId x) id) as [Heq|Hne].
      * exfalso.
        apply (H x); [apply elem_of_cons; left; reflexivity | exact Hr | exact Heq].
      * rewrite (IH (n + 1) Hl). lia.
    + apply IH, Hl.
Qed.

Lemma realItemAt_nth (l1 l2 : list ItemInfo) (item : ItemInfo) (n : Z) :
  isRealItem item = true ->
  realItemAt n (n + countRealItems l1) (l1 ++ item :: l2) = Some item.
Proof.
  intros Hreal. revert n. induction l1 as [|x l1 IH]; intros n; simpl.
  - rewrite Hreal. replace (n + 0) with n by lia. rewrite Z.eqb_refl. reflexivity.
  - pose proof (countRealItems_nonneg l1) as Hnn.
    destruct (isRealItem x) eqn:Hr.
    + destruct (Z.eqb_spec n (n + (countRealItems l1 + 1))) as [Heq|Hne]; [lia|].
      replace (n + (countRealItems l1 + 1)) with ((n + 1) + countRealItems l1) by lia.
      apply IH.
    + apply IH.
Qed.

Lemma first_real_with_id (l : list ItemInfo) (id : Z) :
  (exists x, x ∈ l /\ isRealItem x = true /\ itemId x = id) ->
  exists l1 item l2,
    l = l1 ++ item :: l2 /\ isRealItem item = true /\ itemId item = id
    /\ (forall x, x ∈ l1 -> isRealItem x = true -> itemId x <> id).
Proof.
  induction l as [|y l IH]; intros (x & Hin & Hr & Hid).
  - inversion Hin.
  - destruct (isRealItem y && (itemId y =? id)) eqn:G.
    + apply andb_true_iff in G as [Hyr Hyid]. apply Z.eqb_eq in Hyid.
      exists [], y, l. repeat split; try assumption.
      intros z Hz. inversion Hz.
    + assert (Hx : x ∈ l).
      { apply elem_of_cons in Hin as [->|Hin]; [|exact Hin].
        rewrite Hr in G. simpl in G. apply Z.eqb_neq in G. contradiction. }
      destruct IH as (l1 & item & l2 & -> & Hir & Hiid & Hbefore); [eauto|].
      exists (y :: l1), item, l2. repeat split; try assumption.
      intros z Hz Hzr Hzid. apply elem_of_cons in Hz as [->|Hz].
      * rewrite Hzr in G. simpl in G. apply Z.eqb_neq in G. contradiction.
      * exact (Hbefore z Hz Hzr Hzid).
Qed.

Lemma getItemId_indexOfItemId (cb : ComboBox) (id : Z) :
  (exists x, x ∈ items cb /\ isRealItem x = true /\ itemId x = id) ->
  0 <= indexOfItemId id cb /\ getItemId (indexOfItemId id cb) cb = id.
Proof.
  intros Hex. apply first_real_with_id in Hex
    as (l1 & item & l2 & Hl & Hreal & Hid & Hbefore).
  unfold getItemId, getItemForIndex, indexOfItemId. rewrite Hl.
  rewrite (indexOfIdFrom_first l1 l2 item 0 id Hreal Hid Hbefore).
  rewrite (realItemAt_nth l1 l2 item 0 Hreal).
  split; [|exact Hid]. pose proof (countRealItems_nonneg l1). lia.
Qed.

(** ** Filling the store *)

Lemma step_build_items (op : Op) (cb : ComboBox) :
  isBuildCall op = true ->
  exists added,
    items (step op cb) = items cb ++ added
    /\ countRealItems added = Z.of_nat (length (addedIds [op]))
    /\ (forall id, id ∈ addedIds [op] ->
          exists x, x ∈ added /\ isRealItem x = true /\ itemId x = id).
Proof.
  intros Hb. rewrite step_items. destruct op; try discriminate; simpl in *.
  - rewrite Hb. exists (pendingSeparator cb ++ [realItem newItemText newItemId]).
    apply andb_true_iff in Hb as [Ht _].
    assert (Hreal : isRealItem (realItem newItemText newItemId) = true).
    { unfold isRealItem. simpl. unfold isNotEmpty in Ht. rewrite Ht. reflexivity. }
    split; [reflexivity|]. split.
    + rewrite countRealItems_app. simpl. rewrite Hreal.
      unfold pendingSeparator. destruct (separatorPending cb); reflexivity.
    + intros id Hid. apply list_elem_of_singleton in Hid as ->.
      exists (realItem newItemText newItemId).
      split; [apply elem_of_app; right; apply list_elem_of_singleton; reflexivity|].
      split; [exact Hreal | reflexivity].
  - exists []. rewrite app_nil_r. split; [reflexivity|]. split; [reflexivity|].
    intros id Hid. inversion Hid.
  - destruct (isNotEmpty headingName).
    + exists (pendingSeparator cb ++ [headingItem headingName]).
      split; [reflexivity|]. split.
      * rewrite countRealItems_app. simpl.
        unfold pendingSeparator. destruct (separatorPending cb); reflexivity.
      * intros id Hid. inversion Hid.
    + exists []. rewrite app_nil_r. split; [reflexivity|]. split; [reflexivity|].
      intros id Hid. inversion Hid.
Qed.

Lemma addedIds_cons (op : Op) (ops : list Op) :
  addedIds (op :: ops) = addedIds [op] ++ addedIds ops.
Proof. destruct op; reflexivity. Qed.

Lemma run_build_items (ops : list Op) (cb : ComboBox) :
  forallb isBuildCall ops = true ->
  exists added,
    items (run ops cb) = items cb ++ added
    /\ countRealItems added = Z.of_nat (length (addedIds ops))
    /\ (forall id, id ∈ addedIds ops ->
          exists x, x ∈ added /\ isRealItem x = true /\ itemId x = id).
Proof.
  revert cb. induction ops as [|op ops IH]; intros cb Hb.
  - exists []. simpl. rewrite app_nil_r. split; [reflexivity|].
    split; [reflexivity|]. intros id Hid. inversion Hid.
  - simpl in Hb. apply andb_true_iff in Hb as [Hop Hops].
    destruct (step_build_items op cb Hop) as (a1 & Hi1 & Hc1 & Hm1).
    destruct (IH (step op cb) Hops) as (a2 & Hi2 & Hc2 & Hm2).
    exists (a1 ++ a2). simpl run. rewrite Hi2, Hi1, <- app_assoc.
    split; [reflexivity|]. split.
    + rewrite countRealItems_app, Hc1, Hc2, (addedIds_cons op ops), length_app. lia.
    + intros id Hid. rewrite addedIds_cons in Hid.
      apply elem_of_app in Hid as [Hid|Hid].
      * destruct (Hm1 id Hid) as (x & Hx & Hr & Hxid).
        exists x. split; [apply elem_of_app; left; exact Hx | auto].
      * destruct (Hm2 id Hid) as (x & Hx & Hr & Hxid).
        exists x. split; [apply elem_of_app; right; exact Hx | auto].
Qed.

(** ** The menu *)

Lemma menuEntryFor_spec (selectedId : Z) (item : ItemInfo) (menu : PopupMenu) :
  menuEntryFor selectedId item menu = menu ++ [menuEntryOf selectedId item].
Proof.
  unfold menuEntryFor, menuEntryOf.
  destruct (isSeparator item); [reflexivity|].
  destruct (isHeading item); reflexivity.
Qed.

Lemma fillMenu_spec (selectedId : Z) (l : list ItemInfo) (menu : PopupMenu) :
  fillMenu selectedId l menu = menu ++ (menuEntryOf selectedId <$> l).
Proof.
  revert menu. induction l as [|item l IH]; intros menu; simpl.
  - symmetry. apply app_nil_r.
  - rewrite IH, menuEntryFor_spec, <- app_assoc. reflexivity.
Qed.

Lemma buildMenu_spec (cb : ComboBox) :
  buildMenu cb =
  match items cb with
  | [] => [MenuItem 1 (noChoicesMessage cb) false false]
  | _ :: _ => menuEntryOf (getSelectedId cb) <$> items cb
  end.
Proof.
  unfold buildMenu. rewrite fillMenu_spec. destruct (items cb); reflexivity.
Qed.

(** ** The selected index *)

Lemma real_or_absent (l : list ItemInfo) (id : Z) :
  (exists x, x ∈ l /\ isRealItem x = true /\ itemId x = id)
  \/ (forall x, x ∈ l -> isRealItem x = true -> itemId x <> id).
Proof.
  induction l as [|y l [IH|IH]].
  - right. intros x Hx. inversion Hx.
  - left. destruct IH as (x & Hx & H). exists x.
    split; [apply elem_of_cons; right; exact Hx | exact H].
  - destruct (isRealItem y && (itemId y =? id)) eqn:G.
    + left. apply andb_true_iff in G as [Hr Hid]. apply Z.eqb_eq in Hid.
      exists y. split; [apply elem_of_cons; left; reflexivity | auto].
    + right. intros x Hx Hr Hid. apply elem_of_cons in Hx as [->|Hx].
      * rewrite Hr in G. simpl in G. apply Z.eqb_neq in G. contradiction.
      * exact (IH x Hx Hr Hid).
Qed.

Lemma getSelectedItemIndex_first (cb : ComboBox) (l1 l2 : list ItemInfo)
    (item : ItemInfo) :
  items cb = l1 ++ item :: l2 ->
  isRealItem item = true -> itemId item = currentId cb ->
  (forall x, x ∈ l1 -> isRealItem x = true -> itemId x <> currentId cb) ->
  getItemForIndex (countRealItems l1) cb = Some item
  /\ getSelectedItemIndex cb =
     if String.eqb (getText cb) (name item) then countRealItems l1 else -1.
Proof.
  intros Hl Hreal Hid Hbefore.
  assert (Hat : getItemForIndex (countRealItems l1) cb = Some item).
  { unfold getItemForIndex. rewrite Hl. apply (realItemAt_nth l1 l2 item 0 Hreal). }
  split; [exact Hat|].
  unfold getSelectedItemIndex, getItemText, indexOfItemId. rewrite Hl.
  rewrite (indexOfIdFrom_first l1 l2 item 0 _ Hreal Hid Hbefore).
  rewrite Z.add_0_l, Hat.
  destruct (String.eqb (getText cb) (name item)); reflexivity.
Qed.

Lemma getSelectedItemIndex_absent (cb : ComboBox) :
  (forall x, x ∈ items cb -> isRealItem x = true -> itemId x <> currentId cb) ->
  getSelectedItemIndex cb = -1.
Proof.
  intros H. unfold getSelectedItemIndex, indexOfItemId.
  rewrite (indexOfIdFrom_absent _ 0 _ H).
  destruct (negb _); reflexivity.
Qed.

(** ** Restricted sequences of calls *)

Lemma reach_impl (ok1 ok2 : Op -> ComboBox -> bool) (cb : ComboBox) :
  (forall op st, ok1 op st = true -> ok2 op st = true) ->
  reach ok1 cb -> reach ok2 cb.
Proof.
  intros Himpl. induction 1 as [translated newLabel | op cb Hr IH Hok].
  - apply reach_new.
  - apply reach_step; [exact IH | apply Himpl, Hok].
Qed.

(** ** Names of the items with an id *)

Lemma step_named (op : Op) (cb : ComboBox) :
  nonEmptyRenames op cb = true ->
  Forall namedItem (items cb) -> Forall namedItem (items (step op cb)).
Proof.
  intros Hok H. rewrite step_items. destruct op; try exact H.
  - destruct (isNotEmpty newItemText && negb (newItemId =? 0)) eqn:G; [|exact H].
    apply andb_true_iff in G as [G _]. apply negb_true_iff, isEmpty_false in G.
    apply Forall_app. split; [exact H|]. apply Forall_app. split.
    + unfold pendingSeparator. destruct (separatorPending cb); [|constructor].
      constructor; [|constructor]. intros Hnz. simpl in Hnz. contradiction.
    + constructor; [|constructor]. intros _. exact G.
  - destruct (isNotEmpty headingName) eqn:G; [|exact H].
    apply negb_true_iff, isEmpty_false in G.
    apply Forall_app. split; [exact H|]. apply Forall_app. split.
    + unfold pendingSeparator. destruct (separatorPending cb); [|constructor].
      constructor; [|constructor]. intros Hnz. simpl in Hnz. contradiction.
    + constructor; [|constructor]. intros _. exact G.
  - destruct (getItemForId id cb) as [[p it]|] eqn:E; [|exact H].
    apply getItemForId_Some in E as (Hp & Hid & Hnz).
    apply Forall_insert; [exact H|].
    exact (proj1 (Forall_lookup _ _) H _ _ Hp).
  - destruct (getItemForId id cb) as [[p it]|] eqn:E; [|exact H].
    apply Forall_insert; [exact H|].
    simpl in Hok. apply negb_true_iff, isEmpty_false in Hok.
    intros _. exact Hok.
  - constructor.
Qed.

Lemma reach_named (cb : ComboBox) :
  reach nonEmptyRenames cb -> Forall namedItem (items cb).
Proof.
  induction 1 as [translated newLabel | op cb Hr IH Hok].
  - constructor.
  - apply step_named; assumption.
Qed.

(** ** Ids in the store *)

Lemma uniqueIds_snoc (l : list ItemInfo) (x : ItemInfo) :
  uniqueIds l ->
  itemId x = 0 \/ (forall it, it ∈ l -> itemId it <> itemId x) ->
  uniqueIds (l ++ [x]).
Proof.
  intros Hu Hx i j a b Ha Hb Hab Hnz.
  apply lookup_snoc_Some in Ha as [[Hi Ha] | [Hi Ha]];
  apply lookup_snoc_Some in Hb as [[Hj Hb] | [Hj Hb]].
  - exact (Hu i j a b Ha Hb Hab Hnz).
  - subst b. destruct Hx as [Hx|Hx]; [congruence|].
    exfalso. apply (Hx a); [eapply list_elem_of_lookup_2; exact Ha | exact Hab].
  - subst a. destruct Hx as [Hx|Hx]; [congruence|].
    exfalso. apply (Hx b); [eapply list_elem_of_lookup_2; exact Hb | congruence].
  - congruence.
Qed.

Lemma uniqueIds_insert (l : list ItemInfo) (p : nat) (it it' : ItemInfo) :
  l !! p = Some it -> itemId it' = itemId it ->
  uniqueIds l -> uniqueIds (<[p := it']> l).
Proof.
  intros Hp Hid Hu.
  assert (Hold : forall j y, <[p := it']> l !! j = Some y ->
            exists y0, l !! j = Some y0 /\ itemId y0 = itemId y).
  { intros j y Hy. apply list_lookup_insert_Some in Hy as [(-> & <- & _) | [_ Hy]].
    - exists it. auto.
    - exists y. auto. }
  intros i j a b Ha Hb Hab Hnz.
  destruct (Hold i a Ha) as (a0 & Ha0 & Hida).
  destruct (Hold j b Hb) as (b0 & Hb0 & Hidb).
  apply (Hu i j a0 b0 Ha0 Hb0); congruence.
Qed.

Lemma step_uniqueIds (op : Op) (cb : ComboBox) :
  freshIds op cb = true -> uniqueIds (items cb) -> uniqueIds (items (step op cb)).
Proof.
  intros Hok H. rewrite step_items. destruct op; try exact H.
  - destruct (isNotEmpty newItemText && negb (newItemId =? 0)) eqn:G; [|exact H].
    apply andb_true_iff in G as [_ G]. apply negb_true_iff, Z.eqb_neq in G.
    simpl in Hok. destruct (getItemForId newItemId cb) eqn:E; [discriminate|].
    apply getItemForId_None in E as [E|E]; [contradiction|].
    rewrite app_assoc. apply uniqueIds_snoc.
    + unfold pendingSeparator. destruct (separatorPending cb).
      * apply uniqueIds_snoc; [exact H | left; reflexivity].
      * rewrite app_nil_r. exact H.
    + right. intros it Hin. simpl. apply elem_of_app in Hin as [Hin|Hin].
      * apply E, Hin.
      * unfold pendingSeparator in Hin. destruct (separatorPending cb).
        -- apply list_elem_of_singleton in Hin as ->. simpl. congruence.
        -- inversion Hin.
  - destruct (isNotEmpty headingName); [|exact H].
    rewrite app_assoc. apply uniqueIds_snoc; [|left; reflexivity].
    unfold pendingSeparator. destruct (separatorPending cb).
    + apply uniqueIds_snoc; [exact H | left; reflexivity].
    + rewrite app_nil_r. exact H.
  - destruct (getItemForId id cb) as [[p it]|] eqn:E; [|exact H].
    apply getItemForId_Some in E as (Hp & _).
    apply (uniqueIds_insert _ _ it); [exact Hp | reflexivity | exact H].
  - destruct (getItemForId id cb) as [[p it]|] eqn:E; [|exact H].
    apply getItemForId_Some in E as (Hp & _).
    apply (uniqueIds_insert _ _ it); [exact Hp | reflexivity | exact H].
  - intros i j a b Ha. inversion Ha.
Qed.

Lemma reach_uniqueIds (cb : ComboBox) : reach freshIds cb -> uniqueIds (items cb).
Proof.
  induction 1 as [translated newLabel | op cb Hr IH Hok].
  - intros i j a b Ha. inversion Ha.
  - apply step_uniqueIds; assumption.
Qed.

(** ** Where the separators are *)

Lemma beginsWithSeparator_app (l l' : list ItemInfo) :
  l <> [] -> beginsWithSeparator (l ++ l') = beginsWithSeparator l.
Proof. destruct l; [contradiction | reflexivity]. Qed.

Lemma endsWithSeparator_snoc (l : list ItemInfo) (x : ItemInfo) :
  endsWithSeparator (l ++ [x]) = isSeparator x.
Proof.
  induction l as [|y l IH]; [reflexivity|].
  simpl. destruct l as [|z l]; [reflexivity | exact IH].
Qed.

Lemma hasAdjacentSeparators_cons (y : ItemInfo) (l : list ItemInfo) :
  hasAdjacentSeparators (y :: l) =
  (isSeparator y && beginsWithSeparator l) || hasAdjacentSeparators l.
Proof. reflexivity. Qed.

Lemma endsWithSeparator_cons (y z : ItemInfo) (l : list ItemInfo) :
  endsWithSeparator (y :: z :: l) = endsWithSeparator (z :: l).
Proof. reflexivity. Qed.

Lemma hasAdjacentSeparators_snoc (l : list ItemInfo) (x : ItemInfo) :
  hasAdjacentSeparators (l ++ [x]) =
  hasAdjacentSeparators l || (endsWithSeparator l && isSeparator x).
Proof.
  induction l as [|y l IH].
  - simpl. destruct (isSeparator x); reflexivity.
  - rewrite <- app_comm_cons, !hasAdjacentSeparators_cons, IH.
    destruct l as [|z l].
    + simpl. destruct (isSeparator y), (isSeparator x); reflexivity.
    + rewrite endsWithSeparator_cons, <- app_comm_cons. simpl beginsWithSeparator.
      apply orb_assoc.
Qed.

Lemma append_keeps_separators (l : list ItemInfo) (pending : bool) (x : ItemInfo) :
  beginsWithSeparator l = false -> hasAdjacentSeparators l = false ->
  endsWithSeparator l = false -> (pending = true -> l <> []) ->
  isSeparator x = false ->
  beginsWithSeparator (l ++ (if pending then [separatorItem] else []) ++ [x]) = false
  /\ hasAdjacentSeparators (l ++ (if pending then [separatorItem] else []) ++ [x]) = false
  /\ endsWithSeparator (l ++ (if pending then [separatorItem] else []) ++ [x]) = false.
Proof.
  intros Hb Ha He Hp Hx. rewrite app_assoc.
  rewrite endsWithSeparator_snoc, hasAdjacentSeparators_snoc, Hx, andb_false_r, orb_false_r.
  destruct pending.
  - rewrite hasAdjacentSeparators_snoc, Ha, He.
    rewrite <- app_assoc, (beginsWithSeparator_app l _ (Hp eq_refl)). auto.
  - rewrite app_nil_r, Ha. destruct l; simpl in *; auto.
Qed.

Lemma separators_insert (l : list ItemInfo) (p : nat) (it it' : ItemInfo) :
  l !! p = Some it -> isSeparator it' = isSeparator it ->
  beginsWithSeparator (<[p := it']> l) = beginsWithSeparator l
  /\ hasAdjacentSeparators (<[p := it']> l) = hasAdjacentSeparators l
  /\ endsWithSeparator (<[p := it']> l) = endsWithSeparator l.
Proof.
  intros Hp Hs. revert p Hp. induction l as [|y l IH]; intros p Hp; [discriminate|].
  destruct p as [|p]; simpl in *.
  - inversion Hp; subst y. rewrite Hs. destruct l; auto.
  - destruct (IH p Hp) as (Hb & Ha & He). rewrite Hb, Ha.
    split; [reflexivity|]. split; [reflexivity|].
    destruct l as [|z l]; [discriminate|].
    destruct p; simpl in *; exact He.
Qed.

Lemma step_separatorsInPlace (op : Op) (cb : ComboBox) :
  nonEmptyRenames op cb = true -> Forall namedItem (items cb) ->
  separatorsInPlace cb -> separatorsInPlace (step op cb).
Proof.
  intros Hok Hnamed (Hb & Ha & He & Hp). unfold separatorsInPlace.
  rewrite step_items, step_separatorPending.
  destruct op; try (repeat split; assumption).
  - destruct (isNotEmpty newItemText && negb (newItemId =? 0)) eqn:G;
      [|repeat split; assumption].
    apply andb_true_iff in G as [G _]. apply negb_true_iff in G.
    destruct (append_keeps_separators (items cb) (separatorPending cb)
                (realItem newItemText newItemId) Hb Ha He Hp G) as (Hb' & Ha' & He').
    repeat split; try assumption. discriminate.
  - repeat split; try assumption. intros Hlen. apply Z.ltb_lt in Hlen.
    intros Hnil. rewrite Hnil in Hlen. simpl in Hlen. lia.
  - destruct (isNotEmpty headingName) eqn:G; [|repeat split; assumption].
    apply negb_true_iff in G.
    destruct (append_keeps_separators (items cb) (separatorPending cb)
                (headingItem headingName) Hb Ha He Hp G) as (Hb' & Ha' & He').
    repeat split; try assumption. discriminate.
  - destruct (getItemForId id cb) as [[p it]|] eqn:E; [|repeat split; assumption].
    apply getItemForId_Some in E as (Hl & _).
    destruct (separators_insert (items cb) p it (withEnabled shouldBeEnabled it) Hl eq_refl)
      as (Hb' & Ha' & He').
    rewrite Hb', Ha', He'. repeat split; try assumption.
    intros Hpend Hnil. apply (Hp Hpend).
    apply (f_equal length) in Hnil. rewrite length_insert in Hnil.
    destruct (items cb); [reflexivity | discriminate].
  - destruct (getItemForId id cb) as [[p it]|] eqn:E; [|repeat split; assumption].
    apply getItemForId_Some in E as (Hl & Hid & Hnz).
    assert (Hs : isSeparator (withName newText it) = isSeparator it).
    { simpl in Hok. unfold isSeparator, isNotEmpty in *. simpl.
      apply negb_true_iff in Hok. rewrite Hok. symmetry. apply isEmpty_false.
      apply (proj1 (Forall_lookup _ _) Hnamed _ _ Hl). congruence. }
    destruct (separators_insert (items cb) p it (withName newText it) Hl Hs)
      as (Hb' & Ha' & He').
    rewrite Hb', Ha', He'. repeat split; try assumption.
    intros Hpend Hnil. apply (Hp Hpend).
    apply (f_equal length) in Hnil. rewrite length_insert in Hnil.
    destruct (items cb); [reflexivity | discriminate].
  - repeat split; try reflexivity. discriminate.
Qed.

(** As long as no item is renamed to the empty string, the store never
    begins or ends with a separator and never has two in a row. *)
Lemma reach_separatorsInPlace (cb : ComboBox) :
  reach nonEmptyRenames cb -> separatorsInPlace cb.
Proof.
  induction 1 as [translated newLabel | op cb Hr IH Hok].
  - repeat split; try reflexivity. discriminate.
  - apply step_separatorsInPlace; [exact Hok | apply reach_named, Hr | exact IH].
Qed.

Lemma addSeparator_addSeparator (cb : ComboBox) :
  addSeparator (addSeparator cb) = addSeparator cb.
Proof. reflexivity. Qed.

(** A separator is pending only behind an item, whatever the calls. *)
Lemma reachable_pending (cb : ComboBox) :
  reachable cb -> separatorPending cb = true -> items cb <> [].
Proof.
  induction 1 as [translated newLabel | op cb Hr IH Hok]; [discriminate|].
  rewrite step_items, step_separatorPending. destruct op; try exact IH.
  - destruct (isNotEmpty newItemText && negb (newItemId =? 0)); [discriminate | exact IH].
  - intros Hlen Hnil. apply Z.ltb_lt in Hlen. rewrite Hnil in Hlen. simpl in Hlen. lia.
  - destruct (isNotEmpty headingName); [discriminate | exact IH].
  - destruct (getItemForId id cb) as [[p it]|]; [|exact IH].
    intros Hpend Hnil. apply (IH Hpend).
    apply (f_equal length) in Hnil. rewrite length_insert in Hnil.
    destruct (items cb); [reflexivity | discriminate].
  - destruct (getItemForId id cb) as [[p it]|]; [|exact IH].
    intros Hpend Hnil. apply (IH Hpend).
    apply (f_equal length) in Hnil. rewrite length_insert in Hnil.
    destruct (items cb); [reflexivity | discriminate].
  - discriminate.
Qed.

(** On an empty store [addSeparator] changes nothing. *)
Lemma addSeparator_empty (cb : ComboBox) :
  reachable cb -> items cb = [] -> addSeparator cb = cb.
Proof.
  intros Hr Hnil. pose proof (reachable_pending cb Hr) as Hp.
  unfold addSeparator. rewrite Hnil. simpl.
  destruct cb as [l pend c lc lab ma msg au]. simpl in *. subst l.
  destruct pend; [exfalso; apply (Hp eq_refl); reflexivity | reflexivity].
Qed.

(** Any number of [addSeparator] calls in a row is one [addSeparator]. *)
Lemma addSeparator_repeat (n : nat) (cb : ComboBox) :
  run (replicate (S n) AddSeparator) cb = addSeparator cb.
Proof.
  revert cb. induction n as [|n IH]; intros cb; [reflexivity|].
  change (run (replicate (S (S n)) AddSeparator) cb)
    with (run (replicate (S n) AddSeparator) (addSeparator cb)).
  rewrite IH. apply addSeparator_addSeparator.
Qed.

(** ** What a selection denotes *)

(** As long as no item is renamed to the empty string, the selected id
    is 0 or the id of a real item of the store. *)
Lemma reach_selection_real (cb : ComboBox) :
  reach nonEmptyRenames cb ->
  getSelectedId cb = 0
  \/ exists it, it ∈ items cb /\ isRealItem it = true /\ itemId it = getSelectedId cb.
Proof.
  intros Hr. unfold getSelectedId.
  destruct (getItemForId (currentId cb) cb) as [[p item]|] eqn:E; [|left; reflexivity].
  destruct (String.eqb (getText cb) (name item)); [|left; reflexivity].
  right. apply getItemForId_Some in E as (Hp & Hid & Hnz).
  assert (Hin : item ∈ items cb) by (eapply list_elem_of_lookup_2; exact Hp).
  exists item. split; [exact Hin|]. split; [|reflexivity].
  pose proof (proj1 (Forall_forall _ _)
                (reachable_wellFormed cb (reach_weaken _ _ Hr)) item Hin) as Hwf.
  pose proof (proj1 (Forall_forall _ _) (reach_named cb Hr) item Hin) as Hn.
  apply isRealItem_true.
  destruct Hwf as [-> | [[_ [H0 _]] | [Hh _]]].
  - simpl in Hid. congruence.
  - congruence.
  - split; [exact Hh | apply Hn; congruence].
Qed.

(** In every state the selected id is 0 or the non-zero id of an item
    that is not a heading. *)
Lemma reachable_selection_item (cb : ComboBox) :
  reachable cb ->
  getSelectedId cb = 0
  \/ exists it, it ∈ items cb /\ isHeading it = false /\ itemId it <> 0
                /\ itemId it = getSelectedId cb.
Proof.
  intros Hr. unfold getSelectedId.
  destruct (getItemForId (currentId cb) cb) as [[p item]|] eqn:E; [|left; reflexivity].
  destruct (String.eqb (getText cb) (name item)); [|left; reflexivity].
  right. apply getItemForId_Some in E as (Hp & Hid & Hnz).
  assert (Hin : item ∈ items cb) by (eapply list_elem_of_lookup_2; exact Hp).
  exists item. split; [exact Hin|].
  pose proof (proj1 (Forall_forall _ _) (reachable_wellFormed cb Hr) item Hin) as Hwf.
  destruct Hwf as [-> | [[_ [H0 _]] | [Hh Hi]]].
  - simpl in Hid. congruence.
  - congruence.
  - auto.
Qed.

(** ** Selecting in any state *)

Lemma setSelectedId_sets_currentId (x : Z) (d : bool) (cb : ComboBox) :
  synced cb \/ lastCurrentId cb <> x \/ getText cb <> nameForId x cb ->
  currentId (setSelectedId x d cb) = x.
Proof.
  intros H. unfold setSelectedId. fold (nameForId x cb).
  destruct (Z.eqb_spec (lastCurrentId cb) x) as [Heq|Hne]; simpl;
    [|destruct d; reflexivity].
  destruct (String.eqb_spec (Label_getText (label cb)) (nameForId x cb)) as [Ht|Ht]; simpl;
    [|destruct d; reflexivity].
  destruct H as [Hs | [Hl | Hn]]; [unfold synced in Hs; congruence | contradiction|].
  exfalso. apply Hn. exact Ht.
Qed.

Lemma setSelectedId_skipped (x : Z) (d : bool) (cb : ComboBox) :
  lastCurrentId cb = x -> getText cb = nameForId x cb -> setSelectedId x d cb = cb.
Proof.
  intros Hl Ht. unfold setSelectedId. fold (nameForId x cb).
  unfold getText in Ht. rewrite Hl, Ht, Z.eqb_refl, String.eqb_refl. reflexivity.
Qed.

Lemma getSelectedId_after_setSelectedId (x : Z) (d : bool) (cb : ComboBox) :
  currentId (setSelectedId x d cb) = x ->
  getSelectedId (setSelectedId x d cb) =
  match getItemForId x cb with
  | Some _ => x
  | None => 0
  end.
Proof.
  intros Hc. unfold getSelectedId. rewrite Hc, setSelectedId_getText.
  rewrite (getItemForId_items x (setSelectedId x d cb) cb (setSelectedId_items x d cb)).
  destruct (getItemForId x cb) as [[p it]|] eqn:E; [|reflexivity].
  rewrite String.eqb_refl. apply getItemForId_Some in E. tauto.
Qed.

(** ** The last item with a name *)

Lemma lastRealNamed_last (t : string) (l1 l2 : list ItemInfo) (item : ItemInfo) :
  isRealItem item = true -> name item = t ->
  (forall x, x ∈ l2 -> isRealItem x = true -> name x <> t) ->
  lastRealNamed t (l1 ++ item :: l2) = Some item.
Proof.
  intros Hreal Hname Hafter. induction l1 as [|y l1 IH]; simpl.
  - rewrite (proj2 (lastRealNamed_None t l2) Hafter), Hreal.
    apply String.eqb_eq in Hname. rewrite Hname. reflexivity.
  - rewrite IH. reflexivity.
Qed.

Lemma lastRealNamed_split (t : string) (l : list ItemInfo) (item : ItemInfo) :
  lastRealNamed t l = Some item ->
  exists l1 l2, l = l1 ++ item :: l2
                /\ (forall x, x ∈ l2 -> isRealItem x = true -> name x <> t).
Proof.
  induction l as [|y l IH]; simpl; [discriminate|].
  destruct (lastRealNamed t l) as [found|] eqn:E.
  - intros H. inversion H; subst found.
    destruct (IH eq_refl) as (l1 & l2 & -> & Hafter).
    exists (y :: l1), l2. split; [reflexivity | exact Hafter].
  - destruct (isRealItem y && (name y =? t)%string); [|discriminate].
    intros H. inversion H; subst y.
    exists [], l. split; [reflexivity|]. apply lastRealNamed_None, E.
Qed.

(** ** Reaching the example states *)

Lemma reachable_run (ops : list Op) (translated : string) (newLabel : Label) :
  reachable (run ops (ComboBox_new translated newLabel)).
Proof.
  apply reach_run; [apply reach_new|].
  generalize (ComboBox_new translated newLabel).
  induction ops as [|op ops IH]; intros cb; simpl; [reflexivity | apply IH].
Qed.

(** * The claims *)

(** C1 (amended).  In every state reached through the operations of the
    widget, every section heading has id 0 and every real item has a
    non-empty name and a non-zero id.  When no [changeItemText] call passes
    the empty text, every separator (an item with an empty name) has id 0
    as well; when no [addItem] call passes an id that is already in the
    store, no two real items have the same id.  Under both provisos the
    whole invariant holds. *)
Theorem C1_store_invariant (cb : ComboBox) :
  (reachable cb ->
     (forall it, it ∈ items cb -> isHeading it = true -> itemId it = 0)
     /\ (forall it, it ∈ items cb -> isRealItem it = true ->
           name it <> "" /\ itemId it <> 0))
  /\ (reach nonEmptyRenames cb ->
        forall it, it ∈ items cb -> isSeparator it = true -> itemId it = 0)
  /\ (reach freshIds cb ->
        forall i j a b,
          items cb !! i = Some a -> items cb !! j = Some b ->
          isRealItem a = true -> isRealItem b = true ->
          i <> j -> itemId a <> itemId b)
  /\ (reach freshIdsAndNonEmptyRenames cb -> storeInvariant (items cb)).
Proof.
  assert (Hshape : reachable cb ->
            (forall it, it ∈ items cb -> isHeading it = true -> itemId it = 0)
            /\ (forall it, it ∈ items cb -> isRealItem it = true ->
                  name it <> "" /\ itemId it <> 0)).
  { intros Hr. pose proof (reachable_wellFormed cb Hr) as Hwf.
    rewrite Forall_forall in Hwf. split.
    - intros it Hin Hh. apply (wellFormed_heading_zero it (Hwf it Hin) Hh).
    - intros it Hin Hreal. split.
      + apply isRealItem_true in Hreal. tauto.
      + apply (wellFormed_real_nonzero it (Hwf it Hin) Hreal). }
  assert (Hsep : reach nonEmptyRenames cb ->
            forall it, it ∈ items cb -> isSeparator it = true -> itemId it = 0).
  { intros Hr it Hin Hs. pose proof (reach_named cb Hr) as Hn.
    rewrite Forall_forall in Hn. apply isEmpty_true in Hs.
    destruct (Z.eq_dec (itemId it) 0) as [H0|H0]; [exact H0|].
    exfalso. exact (Hn it Hin H0 Hs). }
  assert (Huniq : reach freshIds cb ->
            forall i j a b,
              items cb !! i = Some a -> items cb !! j = Some b ->
              isRealItem a = true -> isRealItem b = true ->
              i <> j -> itemId a <> itemId b).
  { intros Hr i j a b Ha Hb Hra Hrb Hij Hab.
    apply Hij, (reach_uniqueIds cb Hr i j a b Ha Hb Hab).
    apply (proj2 (Hshape (reach_weaken _ _ Hr)) a); [|exact Hra].
    eapply list_elem_of_lookup_2. exact Ha. }
  split; [exact Hshape|]. split; [exact Hsep|]. split; [exact Huniq|].
  intros Hr.
  assert (Hr1 : reach nonEmptyRenames cb).
  { apply (reach_impl freshIdsAndNonEmptyRenames); [|exact Hr].
    intros op st H. apply andb_true_iff in H. tauto. }
  assert (Hr2 : reach freshIds cb).
  { apply (reach_impl freshIdsAndNonEmptyRenames); [|exact Hr].
    intros op st H. apply andb_true_iff in H. tauto. }
  destruct (Hshape (reach_weaken _ _ Hr)) as [Hhead Hreal].
  split; [|split].
  - intros it Hin [Hs|Hh]; [exact (Hsep Hr1 it Hin Hs) | exact (Hhead it Hin Hh)].
  - exact Hreal.
  - exact (Huniq Hr2).
Qed.

Lemma C1_witness :
  reach freshIdsAndNonEmptyRenames
        (run (paletteCalls ++ [ChangeItemText 2 "Vert"; SetItemEnabled 3 false]) freshBox)
  /\ storeInvariant
       (items (run (paletteCalls ++ [ChangeItemText 2 "Vert"; SetItemEnabled 3 false])
                   freshBox)).
Proof.
  assert (Hr : reach freshIdsAndNonEmptyRenames
                 (run (paletteCalls ++ [ChangeItemText 2 "Vert"; SetItemEnabled 3 false])
                      freshBox)).
  { apply reach_run; [apply reach_new | reflexivity]. }
  split; [exact Hr|].
  apply (proj2 (proj2 (proj2 (C1_store_invariant _))) Hr).
Defined.

(** C1, as stated, fails: in a release build, after [addItem ("a", 1)] and
    [addItem ("b", 1)] the store holds two real items with id 1. *)
Lemma C1_counterexample :
  reachable (run duplicateCalls freshBox)
  /\ items (run duplicateCalls freshBox) = [realItem "a" 1; realItem "b" 1]
  /\ ~ storeInvariant (items (run duplicateCalls freshBox)).
Proof.
  split; [apply reachable_run|]. split; [reflexivity|].
  intros (_ & _ & Huniq).
  apply (Huniq 0%nat 1%nat (realItem "a" 1) (realItem "b" 1)); try reflexivity.
  discriminate.
Qed.

(** C2 (amended).  For every id [x], in a state in which
    [lastCurrentId] equals [currentId] (every state reached through the
    functions of the widget is one), and also in a state in which they
    differ as long as the call is not skipped, [setSelectedId x] followed
    at once by [getSelectedId] returns [x] when [x] is the non-zero id of
    an item of the store, the label then showing the name that the look-up
    of [x] gives; it returns 0 in every other case.  In the states that
    are left, where [lastCurrentId] is [x] already and the label shows the
    looked-up name already, [setSelectedId x] changes nothing at all, so
    that [getSelectedId] keeps answering for the [currentId] that was
    written from outside. *)
Theorem C2_setSelectedId_then_getSelectedId (cb : ComboBox) (x : Z) (d : bool) :
  (synced cb \/ lastCurrentId cb <> x \/ getText cb <> nameForId x cb ->
     (x <> 0 /\ (exists item, item ∈ items cb /\ itemId item = x) ->
        getSelectedId (setSelectedId x d cb) = x
        /\ getText (setSelectedId x d cb) = nameForId x cb
        /\ exists item, item ∈ items cb /\ itemId item = x
                        /\ getText (setSelectedId x d cb) = name item)
     /\ (~ (x <> 0 /\ exists item, item ∈ items cb /\ itemId item = x) ->
           getSelectedId (setSelectedId x d cb) = 0)
     /\ (getSelectedId (setSelectedId x d cb) = x <->
         x = 0 \/ exists item, item ∈ items cb /\ itemId item = x
                               /\ getText (setSelectedId x d cb) = name item))
  /\ (lastCurrentId cb = x -> getText cb = nameForId x cb ->
        setSelectedId x d cb = cb).
Proof.
  split; [|apply setSelectedId_skipped].
  intros Hstate.
  pose proof (getSelectedId_after_setSelectedId x d cb
                (setSelectedId_sets_currentId x d cb Hstate)) as Hget.
  pose proof (setSelectedId_getText x d cb) as Htxt. fold (nameForId x cb) in Htxt.
  assert (Hknown : x <> 0 -> (exists item, item ∈ items cb /\ itemId item = x) ->
            getSelectedId (setSelectedId x d cb) = x
            /\ exists item, item ∈ items cb /\ itemId item = x
                            /\ getText (setSelectedId x d cb) = name item).
  { intros Hx (item & Hin & Hid).
    destruct (getItemForId_known x cb item Hx Hin Hid) as (p & found & E).
    unfold nameForId in Htxt. rewrite E in Hget, Htxt. split; [exact Hget|].
    apply getItemForId_Some in E as (Hp & Hfid & _).
    exists found. split; [eapply list_elem_of_lookup_2; exact Hp | auto]. }
  assert (Hunknown : ~ (x <> 0 /\ exists item, item ∈ items cb /\ itemId item = x) ->
            getSelectedId (setSelectedId x d cb) = 0).
  { intros Hnot. destruct (getItemForId x cb) as [[p found]|] eqn:E; [|exact Hget].
    exfalso. apply Hnot. apply getItemForId_Some in E as (Hp & Hfid & Hx).
    split; [exact Hx|]. exists found.
    split; [eapply list_elem_of_lookup_2; exact Hp | exact Hfid]. }
  split; [|split].
  - intros [Hx Hex]. destruct (Hknown Hx Hex) as [Hsel Hshown]. auto.
  - exact Hunknown.
  - split.
    + intros Hsel. destruct (Z.eq_dec x 0) as [H0|H0]; [left; exact H0 | right].
      destruct (getItemForId x cb) as [[p found]|] eqn:E.
      * unfold nameForId in Htxt. rewrite E in Htxt.
        apply getItemForId_Some in E as (Hp & Hfid & _).
        exists found. split; [eapply list_elem_of_lookup_2; exact Hp | auto].
      * congruence.
    + assert (Hzero : x = 0 -> getSelectedId (setSelectedId x d cb) = x).
      { intros H0. transitivity 0; [|congruence].
        apply Hunknown. intros [Hx _]. contradiction. }
      intros [H0 | (item & Hin & Hid & _)]; [exact (Hzero H0)|].
      destruct (Z.eq_dec x 0) as [H0|H0]; [exact (Hzero H0)|].
      apply Hknown; eauto.
Qed.

Lemma C2_witness :
  synced (run [AddItem "Red" 1; AddItem "Green" 2] freshBox)
  /\ getSelectedId
       (setSelectedId 2 false (run [AddItem "Red" 1; AddItem "Green" 2] freshBox)) = 2
  /\ getSelectedId
       (setSelectedId 9 false (run [AddItem "Red" 1; AddItem "Green" 2] freshBox)) = 0
  /\ lastCurrentId unsyncedBox <> 2
  /\ getSelectedId (setSelectedId 2 false unsyncedBox) = 2
  /\ setSelectedId 1 false unsyncedBox = unsyncedBox.
Proof.
  assert (Hs : synced (run [AddItem "Red" 1; AddItem "Green" 2] freshBox))
    by reflexivity.
  assert (Hu : lastCurrentId unsyncedBox <> 2) by discriminate.
  assert (Hgreen : forall cb, items cb = [realItem "Red" 1; realItem "Green" 2] ->
            2 <> 0 /\ exists item, item ∈ items cb /\ itemId item = 2).
  { intros cb ->. split; [discriminate|].
    exists (realItem "Green" 2). split; [|reflexivity].
    apply elem_of_cons. right. apply elem_of_cons. left. reflexivity. }
  destruct (proj1 (C2_setSelectedId_then_getSelectedId _ 2 false) (or_introl Hs))
    as (Hknown & _ & _).
  destruct (proj1 (C2_setSelectedId_then_getSelectedId _ 9 false) (or_introl Hs))
    as (_ & Hunknown & _).
  destruct (proj1 (C2_setSelectedId_then_getSelectedId unsyncedBox 2 false)
                  (or_intror (or_introl Hu))) as (Hknown' & _ & _).
  split; [exact Hs|]. split; [|split; [|split; [exact Hu|split]]].
  - apply Hknown, Hgreen. reflexivity.
  - apply Hunknown. intros [_ (item & Hin & Hid)]. store_cases Hin.
  - apply Hknown', Hgreen. reflexivity.
  - apply (proj2 (C2_setSelectedId_then_getSelectedId unsyncedBox 1 false)); reflexivity.
Defined.

(** C2, as stated, fails in a state that an outside write to the bound
    value has left: after [setSelectedId (1)] and a write of 2, the id 1
    is in the store and the label shows its name "Red", yet
    [setSelectedId (1)] is skipped and [getSelectedId] returns 0. *)
Lemma C2_counterexample :
  items unsyncedBox = [realItem "Red" 1; realItem "Green" 2]
  /\ lastCurrentId unsyncedBox = 1 /\ currentId unsyncedBox = 2
  /\ getText unsyncedBox = "Red"
  /\ setSelectedId 1 false unsyncedBox = unsyncedBox
  /\ getText (setSelectedId 1 false unsyncedBox) = "Red"
  /\ getSelectedId (setSelectedId 1 false unsyncedBox) = 0.
Proof. repeat split; reflexivity. Qed.

(** C3 (amended).  If [t] is the name of a real item of the store,
    [setText t] is [setSelectedId] for the last real item that bears the
    name, and [getSelectedId] then returns that item's id, provided
    [lastCurrentId] equalled [currentId] before the call (as in every
    state reached through the functions of the widget; not so after an
    outside write to the bound value that [valueChanged] has not yet
    seen).  Otherwise [setText t] clears the selection ([currentId = 0],
    [getSelectedId = 0]) and puts [t] into the label ([getText = t]), in
    every state.  Both branches are taken whether or not the label is
    editable: the code has no check of it. *)
Theorem C3_setText (cb : ComboBox) (t : string) (d : bool) :
  (forall l1 item l2,
      items cb = l1 ++ item :: l2 ->
      isRealItem item = true -> name item = t ->
      (forall x, x ∈ l2 -> isRealItem x = true -> name x <> t) ->
      setText t d cb = setSelectedId (itemId item) d cb
      /\ isTextEditable (setText t d cb) = isTextEditable cb
      /\ (synced cb -> itemId item <> 0 ->
            getSelectedId (setText t d cb) = itemId item))
  /\ ((exists it, it ∈ items cb /\ isRealItem it = true /\ name it = t) ->
        exists l1 item l2,
          items cb = l1 ++ item :: l2
          /\ isRealItem item = true /\ name item = t
          /\ (forall x, x ∈ l2 -> isRealItem x = true -> name x <> t)
          /\ (reachable cb -> getSelectedId (setText t d cb) = itemId item))
  /\ ((forall it, it ∈ items cb -> isRealItem it = true -> name it <> t) ->
        currentId (setText t d cb) = 0
        /\ getSelectedId (setText t d cb) = 0
        /\ getText (setText t d cb) = t
        /\ isTextEditable (setText t d cb) = isTextEditable cb).
Proof.
  assert (Hlast : forall l1 item l2,
            items cb = l1 ++ item :: l2 ->
            isRealItem item = true -> name item = t ->
            (forall x, x ∈ l2 -> isRealItem x = true -> name x <> t) ->
            setText t d cb = setSelectedId (itemId item) d cb
            /\ isTextEditable (setText t d cb) = isTextEditable cb
            /\ (synced cb -> itemId item <> 0 ->
                  getSelectedId (setText t d cb) = itemId item)).
  { intros l1 item l2 Hl Hreal Hname Hafter.
    assert (Hset : setText t d cb = setSelectedId (itemId item) d cb).
    { unfold setText. rewrite Hl, (lastRealNamed_last t l1 l2 item Hreal Hname Hafter).
      reflexivity. }
    split; [exact Hset|]. split; [apply setText_editable|].
    intros Hs Hnz. rewrite Hset, (setSelectedId_getSelectedId _ d cb Hs).
    assert (Hin : item ∈ items cb).
    { rewrite Hl. apply elem_of_app. right. apply elem_of_cons. left. reflexivity. }
    destruct (getItemForId_known (itemId item) cb item Hnz Hin eq_refl)
      as (p & found & ->).
    reflexivity. }
  split; [exact Hlast|]. split.
  - intros (it & Hin & Hreal & Hname).
    destruct (lastRealNamed t (items cb)) as [item|] eqn:E.
    + pose proof (lastRealNamed_Some _ _ _ E) as (Hin' & Hreal' & Hname').
      destruct (lastRealNamed_split _ _ _ E) as (l1 & l2 & Hl & Hafter).
      exists l1, item, l2. repeat split; try assumption.
      intros Hr.
      apply (Hlast l1 item l2 Hl Hreal' Hname' Hafter).
      * apply reachable_synced, Hr.
      * apply wellFormed_real_nonzero; [|exact Hreal'].
        exact (proj1 (Forall_forall _ _) (reachable_wellFormed cb Hr) item Hin').
    + exfalso. exact (proj1 (lastRealNamed_None _ _) E it Hin Hreal Hname).
  - intros Hnone. apply lastRealNamed_None in Hnone.
    destruct (setText_free t d cb Hnone) as (Hc & _ & Ht).
    repeat split; try assumption.
    + apply getSelectedId_none, Hc.
    + apply setText_editable.
Qed.

Lemma C3_witness :
  setText "x" false (run sameNameCalls freshBox)
  = setSelectedId 2 false (run sameNameCalls freshBox)
  /\ getSelectedId (setText "x" false (run sameNameCalls freshBox)) = 2
  /\ getSelectedId (setText "unrelated" false (run sameNameCalls freshBox)) = 0
  /\ getText (setText "unrelated" false (run sameNameCalls freshBox)) = "unrelated".
Proof.
  destruct (proj1 (C3_setText (run sameNameCalls freshBox) "x" false)
                  [realItem "x" 1] (realItem "x" 2) [])
    as (Hset & _ & Hsel).
  - reflexivity.
  - reflexivity.
  - reflexivity.
  - intros x Hx. inversion Hx.
  - assert (Hfree : forall it, it ∈ items (run sameNameCalls freshBox) ->
                      isRealItem it = true -> name it <> "unrelated").
    { intros it Hin _. store_cases Hin. }
    destruct (proj2 (proj2 (C3_setText (run sameNameCalls freshBox) "unrelated" false)) Hfree)
      as (_ & Hzero & Htxt & _).
    split; [exact Hset|]. split; [|split; [exact Hzero | exact Htxt]].
    apply Hsel; [reflexivity | discriminate].
Defined.

(** C3, as stated, fails in three ways.  On a label that is not editable,
    [setText] with a text that names no item still puts the text into the
    label.  When two real items bear the name, [setText] selects the last
    one: for the first one, which bears the name as well, [getSelectedId]
    does not return its id.  And after an outside write to the bound
    value, [setText ("Red")] with "Red" the name of item 1 is skipped and
    [getSelectedId] returns 0. *)
Lemma C3_counterexample :
  reachable (run [SetEditableText false] freshBox)
  /\ isTextEditable (run [SetEditableText false] freshBox) = false
  /\ lastRealNamed "unrelated" (items (run [SetEditableText false] freshBox)) = None
  /\ getText (run [SetEditableText false] freshBox) = ""
  /\ getText (setText "unrelated" false (run [SetEditableText false] freshBox))
     = "unrelated"
  /\ isTextEditable (setText "unrelated" false (run [SetEditableText false] freshBox))
     = false
  /\ items (run sameNameCalls freshBox) = [realItem "x" 1; realItem "x" 2]
  /\ getSelectedId (setText "x" false (run sameNameCalls freshBox)) = 2
  /\ getText unsyncedBox = "Red"
  /\ setText "Red" false unsyncedBox = unsyncedBox
  /\ getSelectedId (setText "Red" false unsyncedBox) = 0.
Proof.
  split; [apply reachable_run|]. repeat split; reflexivity.
Qed.




(** C5.  After a sequence of [addItem] calls with pairwise distinct
    non-zero ids and non-empty texts, possibly interleaved with
    [addSeparator] and [addSectionHeading] calls, on a widget whose store
    was empty, [getNumItems] is the number of [addItem] calls and
    [getItemId (indexOfItemId id) = id] for every id added. *)
Theorem C5_getNumItems_and_index (ops : list Op) (cb0 : ComboBox) :
  items cb0 = [] ->
  forallb isBuildCall ops = true ->
  NoDup (addedIds ops) ->
  getNumItems (run ops cb0) = Z.of_nat (length (addedIds ops))
  /\ (forall id, id ∈ addedIds ops ->
        getItemId (indexOfItemId id (run ops cb0)) (run ops cb0) = id).
Proof.
  intros Hempty Hbuild _.
  destruct (run_build_items ops cb0 Hbuild) as (added & Hitems & Hcount & Hmem).
  rewrite Hempty in Hitems. simpl in Hitems. split.
  - unfold getNumItems. rewrite Hitems. exact Hcount.
  - intros id Hid. apply getItemId_indexOfItemId. rewrite Hitems. apply Hmem, Hid.
Qed.

Lemma C5_witness :
  getNumItems (run paletteCalls freshBox) = 3
  /\ (forall id, id ∈ [1; 2; 3] ->
        getItemId (indexOfItemId id (run paletteCalls freshBox))
                  (run paletteCalls freshBox) = id).
Proof.
  apply (C5_getNumItems_and_index paletteCalls freshBox).
  - reflexivity.
  - reflexivity.
  - apply (bool_decide_unpack _). vm_compute. exact I.
Defined.

(** C6.  [addSeparator] leaves the items alone; a call that is neither
    [addItem] nor [addSectionHeading] leaves the sequence of item ids alone
    or empties the store, so that no zero-id item appears; on a store that
    is not empty, [addSeparator] followed by an accepted [addItem] or
    [addSectionHeading] appends the separator item and then the new item;
    and [addSeparator] followed at once by [clear] leaves the store empty
    with nothing pending, so that the next [addItem] yields that item
    alone. *)
Theorem C6_separator_is_lazy (cb : ComboBox) (d : bool) :
  items (addSeparator cb) = items cb
  /\ (forall op, (forall t id, op <> AddItem t id) ->
                 (forall h, op <> AddSectionHeading h) ->
        itemId <$> items (step op cb) = itemId <$> items cb
        \/ items (step op cb) = [])
  /\ (forall t id, items cb <> [] -> isNotEmpty t = true -> id <> 0 ->
        items (addItem t id (addSeparator cb))
        = items cb ++ [separatorItem; realItem t id])
  /\ (forall h, items cb <> [] -> isNotEmpty h = true ->
        items (addSectionHeading h (addSeparator cb))
        = items cb ++ [separatorItem; headingItem h])
  /\ items (clear d (addSeparator cb)) = []
  /\ separatorPending (clear d (addSeparator cb)) = false
  /\ (forall t id, isNotEmpty t = true -> id <> 0 ->
        items (addItem t id (clear d (addSeparator cb))) = [realItem t id]).
Proof.
  assert (Hpending : items cb <> [] -> separatorPending (addSeparator cb) = true).
  { intros Hne. unfold addSeparator. simpl. apply Z.ltb_lt.
    destruct (items cb); [contradiction | simpl; lia]. }
  split; [reflexivity|]. split; [|split; [|split; [|split; [|split]]]].
  - intros op Hadd Hhead. rewrite step_items.
    destruct op; try (left; reflexivity).
    + exfalso. exact (Hadd _ _ eq_refl).
    + exfalso. exact (Hhead _ eq_refl).
    + left. destruct (getItemForId id cb) as [[p it]|] eqn:E; [|reflexivity].
      apply getItemForId_Some in E as (Hp & _).
      rewrite list_fmap_insert. apply list_insert_id.
      rewrite list_lookup_fmap, Hp. reflexivity.
    + left. destruct (getItemForId id cb) as [[p it]|] eqn:E; [|reflexivity].
      apply getItemForId_Some in E as (Hp & _).
      rewrite list_fmap_insert. apply list_insert_id.
      rewrite list_lookup_fmap, Hp. reflexivity.
    + right. reflexivity.
  - intros t id Hne Ht Hid. apply Z.eqb_neq in Hid.
    unfold addItem. rewrite Ht, Hid. simpl.
    rewrite flushSeparator_items. unfold pendingSeparator.
    rewrite (Hpending Hne), <- app_assoc. reflexivity.
  - intros h Hne Hh. unfold addSectionHeading. rewrite Hh. simpl.
    rewrite flushSeparator_items. unfold pendingSeparator.
    rewrite (Hpending Hne), <- app_assoc. reflexivity.
  - apply clear_items.
  - apply clear_separatorPending.
  - intros t id Ht Hid. apply Z.eqb_neq in Hid.
    unfold addItem. rewrite Ht, Hid. simpl.
    rewrite flushSeparator_items. unfold pendingSeparator.
    rewrite clear_separatorPending, clear_items. reflexivity.
Qed.

Lemma C6_witness :
  items (addItem "Blue" 3 (addSeparator (run [AddItem "Red" 1] freshBox)))
  = items (run [AddItem "Red" 1] freshBox) ++ [separatorItem; realItem "Blue" 3]
  /\ items (addItem "Blue" 3 (clear false (addSeparator (run [AddItem "Red" 1] freshBox))))
     = [realItem "Blue" 3].
Proof.
  destruct (C6_separator_is_lazy (run [AddItem "Red" 1] freshBox) false)
    as (_ & _ & Hadd & _ & _ & _ & Hclear).
  split.
  - apply Hadd; [discriminate | reflexivity | discriminate].
  - apply Hclear; [reflexivity | discriminate].
Defined.

(** C7 (amended).  [getSelectedItemIndex] is computed from the items, the
    current id and the label text alone.  It is the index, among the real
    items, of the first real item bearing the current id when the name of
    that item equals the label text, and -1 when it does not or when no
    real item bears the current id; an index other than -1 therefore
    denotes an item that bears the current id and whose name is the label
    text. *)
Theorem C7_getSelectedItemIndex (cb : ComboBox) :
  (forall l1 item l2,
      items cb = l1 ++ item :: l2 ->
      isRealItem item = true -> itemId item = currentId cb ->
      (forall x, x ∈ l1 -> isRealItem x = true -> itemId x <> currentId cb) ->
      getSelectedItemIndex cb =
      if String.eqb (getText cb) (name item) then countRealItems l1 else -1)
  /\ ((forall x, x ∈ items cb -> isRealItem x = true -> itemId x <> currentId cb) ->
        getSelectedItemIndex cb = -1)
  /\ (getSelectedItemIndex cb <> -1 ->
        exists item,
          getItemForIndex (getSelectedItemIndex cb) cb = Some item
          /\ itemId item = currentId cb /\ name item = getText cb)
  /\ (forall cb2,
        items cb2 = items cb -> currentId cb2 = currentId cb ->
        getText cb2 = getText cb ->
        getSelectedItemIndex cb2 = getSelectedItemIndex cb).
Proof.
  split; [|split; [|split]].
  - intros l1 item l2 Hl Hreal Hid Hbefore.
    apply (getSelectedItemIndex_first cb l1 l2 item Hl Hreal Hid Hbefore).
  - apply getSelectedItemIndex_absent.
  - intros Hsel. destruct (real_or_absent (items cb) (currentId cb)) as [Hex|Habs].
    + apply first_real_with_id in Hex as (l1 & item & l2 & Hl & Hreal & Hid & Hbefore).
      destruct (getSelectedItemIndex_first cb l1 l2 item Hl Hreal Hid Hbefore)
        as [Hat Hidx].
      destruct (String.eqb_spec (getText cb) (name item)) as [Heq|Hne].
      * exists item. rewrite Hidx. auto.
      * contradiction.
    + exfalso. apply Hsel, getSelectedItemIndex_absent, Habs.
  - intros cb2 Hi Hc Ht.
    unfold getSelectedItemIndex, getItemText, getItemForIndex, indexOfItemId.
    rewrite Hi, Hc, Ht. reflexivity.
Qed.

Lemma C7_witness :
  getSelectedItemIndex (run [AddItem "Red" 1; AddItem "Green" 2; SetText "Green" false]
                            freshBox) = 1
  /\ getSelectedItemIndex (run [AddItem "Red" 1; AddItem "Green" 2; SetText "Mauve" false]
                               freshBox) = -1.
Proof.
  split.
  - apply (proj1 (C7_getSelectedItemIndex
                    (run [AddItem "Red" 1; AddItem "Green" 2; SetText "Green" false]
                         freshBox))
                 [realItem "Red" 1] (realItem "Green" 2) []).
    + reflexivity.
    + reflexivity.
    + reflexivity.
    + intros x Hx _. store_cases Hx.
  - apply (proj1 (proj2 (C7_getSelectedItemIndex
                    (run [AddItem "Red" 1; AddItem "Green" 2; SetText "Mauve" false]
                         freshBox)))).
    intros x Hx _. store_cases Hx.
Defined.

(** C7, as stated, fails: the label shows "Red", the item named "Red" has
    index 1, and the index reported is -1, because the lookup goes by the
    current id (1, now named "Rouge"), not by the label text. *)
Lemma C7_counterexample :
  reachable (run renamedCalls freshBox)
  /\ getText (run renamedCalls freshBox) = "Red"
  /\ getItemText 0 (run renamedCalls freshBox) = "Rouge"
  /\ getItemText 1 (run renamedCalls freshBox) = "Red"
  /\ getNumItems (run renamedCalls freshBox) = 2
  /\ getSelectedItemIndex (run renamedCalls freshBox) = -1.
Proof.
  split; [apply reachable_run|]. repeat split; reflexivity.
Qed.

(** C8.  When no menu is active, [showPopup] builds a menu with one entry
    per item of the store, in order: a menu separator for a separator
    item, a section header for a heading, and for a real item an entry
    with its id, name and enabled flag that is ticked iff its id is the
    selected id; for an empty store the menu is the single disabled,
    unticked entry with the "no choices" message. *)
Theorem C8_showPopup_menu (cb : ComboBox) :
  menuActive cb = false ->
  exists menu,
    showPopup cb = (set_menuActive true cb, Some menu)
    /\ (items cb = [] -> menu = [MenuItem 1 (noChoicesMessage cb) false false])
    /\ (items cb <> [] ->
          length menu = length (items cb)
          /\ forall i item, items cb !! i = Some item ->
               (isSeparator item = true -> menu !! i = Some MenuSeparator)
               /\ (isSeparator item = false -> isHeading item = true ->
                     menu !! i = Some (MenuSectionHeader (name item)))
               /\ (isRealItem item = true ->
                     exists ticked,
                       menu !! i = Some (MenuItem (itemId item) (name item)
                                                  (isEnabled item) ticked)
                       /\ (ticked = true <-> itemId item = getSelectedId cb))).
Proof.
  intros Hactive. exists (buildMenu cb).
  split; [unfold showPopup; rewrite Hactive; reflexivity|].
  rewrite buildMenu_spec. split.
  - intros ->. reflexivity.
  - intros Hne. destruct (items cb) as [|first others] eqn:E; [contradiction|].
    rewrite <- E in *. clear E Hne first others.
    split; [apply length_fmap|].
    intros i item Hi. unfold PopupMenu. rewrite list_lookup_fmap, Hi. simpl.
    unfold menuEntryOf. split; [|split].
    + intros ->. reflexivity.
    + intros -> ->. reflexivity.
    + intros Hreal. apply isRealItem_true in Hreal as [Hh Hn].
      apply isEmpty_false in Hn. unfold isSeparator. rewrite Hn, Hh.
      exists (itemId item =? getSelectedId cb).
      split; [reflexivity | apply Z.eqb_eq].
Qed.

Lemma C8_witness :
  exists menu,
    showPopup (run paletteCalls freshBox)
    = (set_menuActive true (run paletteCalls freshBox), Some menu)
    /\ (items (run paletteCalls freshBox) = [] ->
          menu = [MenuItem 1 (noChoicesMessage (run paletteCalls freshBox)) false false])
    /\ (items (run paletteCalls freshBox) <> [] ->
          length menu = length (items (run paletteCalls freshBox))
          /\ forall i item, items (run paletteCalls freshBox) !! i = Some item ->
               (isSeparator item = true -> menu !! i = Some MenuSeparator)
               /\ (isSeparator item = false -> isHeading item = true ->
                     menu !! i = Some (MenuSectionHeader (name item)))
               /\ (isRealItem item = true ->
                     exists ticked,
                       menu !! i = Some (MenuItem (itemId item) (name item)
                                                  (isEnabled item) ticked)
                       /\ (ticked = true
                           <-> itemId item = getSelectedId (run paletteCalls freshBox)))).
Proof.
  apply (C8_showPopup_menu (run paletteCalls freshBox)). reflexivity.
Defined.

(** C9.  The code at the input that breaks the claim: [changeItemText]
    accepts the empty text, and the renamed item is then a separator
    ([isSeparator] only looks at the name).  After [addItem ("a", 1)] and
    [changeItemText (1, "")] the store begins with a separator; after
    [addItem ("a", 1)], [addSeparator], [addItem ("b", 2)] and
    [changeItemText (2, "")] it ends with two separators in a row. *)
Theorem C9_empty_rename_makes_separator :
  reachable (run emptyRenameCalls freshBox)
  /\ items (run emptyRenameCalls freshBox) = [mkItemInfo "" 1 true false]
  /\ beginsWithSeparator (items (run emptyRenameCalls freshBox)) = true
  /\ reachable (run emptyRenameAfterSeparatorCalls freshBox)
  /\ items (run emptyRenameAfterSeparatorCalls freshBox)
     = [realItem "a" 1; separatorItem; mkItemInfo "" 2 true false]
  /\ hasAdjacentSeparators (items (run emptyRenameAfterSeparatorCalls freshBox)) = true.
Proof.
  split; [apply reachable_run|]. split; [reflexivity|]. split; [reflexivity|].
  split; [apply reachable_run|]. split; reflexivity.
Qed.

(** C10.  The code at the input that breaks the claim: after
    [addItem ("a", 1)], [changeItemText (1, "")] and [setSelectedId (1)]
    the selected id is 1 although the store holds no real item. *)
Theorem C10_selection_of_renamed_item :
  reachable (run selectEmptyRenamedCalls freshBox)
  /\ items (run selectEmptyRenamedCalls freshBox) = [mkItemInfo "" 1 true false]
  /\ getNumItems (run selectEmptyRenamedCalls freshBox) = 0
  /\ (forall it, it ∈ items (run selectEmptyRenamedCalls freshBox) ->
        isRealItem it = false)
  /\ getSelectedId (run selectEmptyRenamedCalls freshBox) = 1.
Proof.
  split; [apply reachable_run|]. split; [reflexivity|]. split; [reflexivity|].
  split; [|reflexivity].
  intros it Hin. apply list_elem_of_singleton in Hin. subst it. reflexivity.
Qed.

(** * More of the widget *)

(** ** The real items, in order *)

Lemma countRealItems_realItems (l : list ItemInfo) :
  countRealItems l = Z.of_nat (length (realItems l)).
Proof.
  induction l as [|x l IH]; simpl; [reflexivity|].
  destruct (isRealItem x); simpl; lia.
Qed.

Lemma realItems_app (l1 l2 : list ItemInfo) :
  realItems (l1 ++ l2) = realItems l1 ++ realItems l2.
Proof.
  induction l1 as [|x l1 IH]; simpl; [reflexivity|].
  rewrite IH. destruct (isRealItem x); reflexivity.
Qed.

Lemma elem_of_realItems (l : list ItemInfo) (x : ItemInfo) :
  x ∈ realItems l <-> x ∈ l /\ isRealItem x = true.
Proof.
  induction l as [|y l IH]; simpl.
  - split; [intros H; inversion H | intros [H _]; inversion H].
  - destruct (isRealItem y) eqn:Hy.
    + rewrite !elem_of_cons, IH.
      split; [intros [->|[H1 H2]]; auto | intros [[->|H1] H2]; auto].
    + rewrite elem_of_cons, IH.
      split; [intros [H1 H2]; auto | intros [[->|H1] H2]; [congruence | auto]].
Qed.

Lemma realItemAt_realItems (l : list ItemInfo) (n index : Z) :
  realItemAt n index l =
  if index <? n then None else realItems l !! Z.to_nat (index - n).
Proof.
  revert n. induction l as [|x l IH]; intros n; simpl.
  - destruct (index <? n); reflexivity.
  - destruct (isRealItem x).
    + destruct (Z.eqb_spec n index) as [->|Hne].
      * rewrite Z.ltb_irrefl, Z.sub_diag. reflexivity.
      * rewrite IH. destruct (Z.ltb_spec index n) as [Hlt|Hge].
        -- destruct (Z.ltb_spec index (n + 1)); [reflexivity | lia].
        -- destruct (Z.ltb_spec index (n + 1)); [lia|].
           replace (Z.to_nat (index - n)) with (S (Z.to_nat (index - (n + 1)))) by lia.
           reflexivity.
    + apply IH.
Qed.

Lemma getItemForIndex_realItems (cb : ComboBox) (index : Z) :
  getItemForIndex index cb =
  if index <? 0 then None else realItems (items cb) !! Z.to_nat index.
Proof.
  unfold getItemForIndex. rewrite realItemAt_realItems, Z.sub_0_r. reflexivity.
Qed.

Lemma realItemAt_split (l : list ItemInfo) (n index : Z) (item : ItemInfo) :
  realItemAt n index l = Some item ->
  exists l1 l2, l = l1 ++ item :: l2 /\ isRealItem item = true
                /\ index = n + countRealItems l1.
Proof.
  revert n. induction l as [|x l IH]; intros n H; simpl in H; [discriminate|].
  destruct (isRealItem x) eqn:Hx.
  - destruct (Z.eqb_spec n index) as [->|Hne].
    + inversion H; subst. exists [], l. simpl. split; [reflexivity|]. split; [exact Hx | lia].
    + destruct (IH _ H) as (l1 & l2 & -> & Hr & Hi).
      exists (x :: l1), l2. simpl. rewrite Hx. split; [reflexivity|]. split; [exact Hr | lia].
  - destruct (IH _ H) as (l1 & l2 & -> & Hr & Hi).
    exists (x :: l1), l2. simpl. rewrite Hx. split; [reflexivity|]. split; [exact Hr | lia].
Qed.

Lemma getItemForIndex_inside (cb : ComboBox) (index : Z) :
  0 <= index < getNumItems cb ->
  exists item, getItemForIndex index cb = Some item
               /\ item ∈ items cb /\ isRealItem item = true.
Proof.
  unfold getNumItems. rewrite getItemForIndex_realItems, countRealItems_realItems.
  intros [H0 Hlt]. destruct (Z.ltb_spec index 0) as [Hneg|_]; [lia|].
  destruct (lookup_lt_is_Some_2 (realItems (items cb)) (Z.to_nat index)) as [item Hitem];
    [lia|].
  exists item. split; [exact Hitem|].
  apply list_elem_of_lookup_2, elem_of_realItems in Hitem. exact Hitem.
Qed.

Lemma getItemForIndex_outside (cb : ComboBox) (index : Z) :
  index < 0 \/ getNumItems cb <= index -> getItemForIndex index cb = None.
Proof.
  unfold getNumItems. rewrite getItemForIndex_realItems, countRealItems_realItems.
  intros [Hneg|Hge].
  - destruct (Z.ltb_spec index 0); [reflexivity | lia].
  - destruct (Z.ltb_spec index 0); [reflexivity|].
    apply lookup_ge_None_2. lia.
Qed.

(** X5.  [getItemForIndex] counts real items only, from 0: an index from
    0 up to [getNumItems () - 1] yields a real item of the store; any
    other index (negative or too large) yields nothing, and then
    [getItemText] is the empty string and [getItemId] is 0. *)
Theorem X5_getItemForIndex_bounds (cb : ComboBox) (index : Z) :
  (0 <= index < getNumItems cb ->
     exists item, getItemForIndex index cb = Some item
                  /\ item ∈ items cb /\ isRealItem item = true
                  /\ getItemText index cb = name item
                  /\ getItemId index cb = itemId item)
  /\ (index < 0 \/ getNumItems cb <= index ->
        getItemForIndex index cb = None
        /\ getItemText index cb = "" /\ getItemId index cb = 0).
Proof.
  unfold getItemText, getItemId. split.
  - intros Hi. destruct (getItemForIndex_inside cb index Hi) as (item & Hat & Hin & Hr).
    exists item. rewrite Hat. auto.
  - intros Ho. rewrite (getItemForIndex_outside cb index Ho). auto.
Qed.

Lemma X5_witness :
  (exists item, getItemForIndex 1 (run paletteCalls freshBox) = Some item
                /\ item ∈ items (run paletteCalls freshBox) /\ isRealItem item = true
                /\ getItemText 1 (run paletteCalls freshBox) = name item
                /\ getItemId 1 (run paletteCalls freshBox) = itemId item)
  /\ getItemText 3 (run paletteCalls freshBox) = ""
  /\ getItemId (-1) (run paletteCalls freshBox) = 0.
Proof.
  split; [|split].
  - apply (proj1 (X5_getItemForIndex_bounds (run paletteCalls freshBox) 1)).
    vm_compute. split; [discriminate | reflexivity].
  - apply (proj2 (X5_getItemForIndex_bounds (run paletteCalls freshBox) 3)).
    right. vm_compute. discriminate.
  - apply (proj2 (X5_getItemForIndex_bounds (run paletteCalls freshBox) (-1))).
    left. reflexivity.
Defined.

(** ** From an id to its index and back *)

Lemma indexOfIdFrom_present (l : list ItemInfo) (n id : Z) :
  (exists x, x ∈ l /\ isRealItem x = true /\ itemId x = id) ->
  n <= indexOfIdFrom n id l < n + countRealItems l.
Proof.
  intros Hex. apply first_real_with_id in Hex
    as (l1 & item & l2 & -> & Hreal & Hid & Hbefore).
  rewrite (indexOfIdFrom_first l1 l2 item n id Hreal Hid Hbefore).
  rewrite countRealItems_app. simpl. rewrite Hreal.
  pose proof (countRealItems_nonneg l1). pose proof (countRealItems_nonneg l2). lia.
Qed.

(** X7.  [indexOfItemId] returns -1 exactly when no real item of the
    store has the id (so always for the id of a heading or separator);
    otherwise it returns an index from 0 up to [getNumItems () - 1]. *)
Theorem X7_indexOfItemId_range (cb : ComboBox) (id : Z) :
  (indexOfItemId id cb = -1 <->
   forall x, x ∈ items cb -> isRealItem x = true -> itemId x <> id)
  /\ -1 <= indexOfItemId id cb < getNumItems cb.
Proof.
  unfold indexOfItemId, getNumItems.
  destruct (real_or_absent (items cb) id) as [Hex|Habs].
  - pose proof (indexOfIdFrom_present (items cb) 0 id Hex) as Hr.
    split; [|lia]. split; [lia|].
    intros Habs. destruct Hex as (x & Hin & Hreal & Hid).
    exfalso. exact (Habs x Hin Hreal Hid).
  - rewrite (indexOfIdFrom_absent _ 0 id Habs).
    pose proof (countRealItems_nonneg (items cb)). split; [tauto | lia].
Qed.

Lemma unique_before (l1 l2 : list ItemInfo) (item : ItemInfo) :
  uniqueIds (l1 ++ item :: l2) -> itemId item <> 0 ->
  forall x, x ∈ l1 -> itemId x <> itemId item.
Proof.
  intros Hu Hnz x Hin Heq.
  apply list_elem_of_lookup_1 in Hin as [q Hq].
  pose proof (lookup_lt_Some _ _ _ Hq) as Hlt.
  assert (Hq' : (l1 ++ item :: l2) !! q = Some x) by (apply lookup_app_l_Some, Hq).
  assert (Hp : (l1 ++ item :: l2) !! length l1 = Some item) by apply list_lookup_middle, eq_refl.
  assert (q = length l1); [|lia].
  apply (Hu q (length l1) x item Hq' Hp Heq). congruence.
Qed.

(** X6.  When no [addItem] call reused an id of the store, the index of
    the id of the item at index [i] is [i], for every index from 0 up to
    [getNumItems () - 1]. *)
Theorem X6_indexOfItemId_getItemId (cb : ComboBox) (i : Z) :
  reach freshIds cb ->
  0 <= i < getNumItems cb ->
  indexOfItemId (getItemId i cb) cb = i.
Proof.
  intros Hr Hi.
  destruct (getItemForIndex_inside cb i Hi) as (item & Hat & Hin & Hreal).
  unfold getItemId. rewrite Hat. unfold getItemForIndex in Hat.
  apply realItemAt_split in Hat as (l1 & l2 & Hl & _ & Hidx).
  unfold indexOfItemId. rewrite Hl, Hidx. apply indexOfIdFrom_first; [exact Hreal | reflexivity|].
  intros x Hx _. apply (unique_before l1 l2 item); [|  | exact Hx].
  - rewrite <- Hl. apply reach_uniqueIds, Hr.
  - apply wellFormed_real_nonzero; [|exact Hreal].
    exact (proj1 (Forall_forall _ _) (reachable_wellFormed cb (reach_weaken _ _ Hr)) item Hin).
Qed.

Lemma X6_witness :
  indexOfItemId (getItemId 2 (run paletteCalls freshBox)) (run paletteCalls freshBox) = 2.
Proof.
  apply (X6_indexOfItemId_getItemId (run paletteCalls freshBox) 2).
  - apply reach_run; [apply reach_new | reflexivity].
  - vm_compute. split; [discriminate | reflexivity].
Defined.

(** ** Writing through the pointer of [getItemForId] *)

Lemma lastWithId_last (id : Z) (l : list ItemInfo) (p : nat) (it : ItemInfo) :
  lastWithId id l = Some (p, it) ->
  forall q x, (p < q)%nat -> l !! q = Some x -> itemId x <> id.
Proof.
  revert p it. induction l as [|y l IH]; intros p it H q x Hlt Hq; simpl in H;
    [discriminate|].
  destruct q as [|q]; [lia|]. simpl in Hq.
  destruct (lastWithId id l) as [[i found]|] eqn:E.
  - inversion H; subst. apply (IH i it eq_refl q x); [lia | exact Hq].
  - apply (proj1 (lastWithId_None id l) E x). eapply list_elem_of_lookup_2. exact Hq.
Qed.

Lemma lastWithId_insert (id : Z) (l : list ItemInfo) (p : nat) (it it' : ItemInfo) :
  l !! p = Some it -> itemId it' = itemId it ->
  lastWithId id (<[p := it']> l) =
  match lastWithId id l with
  | Some (q, x) => Some (q, if Nat.eqb q p then it' else x)
  | None => None
  end.
Proof.
  intros Hp Hid. revert p Hp. induction l as [|y l IH]; intros p Hp; [discriminate|].
  destruct p as [|p]; simpl in *.
  - inversion Hp; subst y. destruct (lastWithId id l) as [[i found]|]; [reflexivity|].
    rewrite Hid. destruct (itemId it =? id); reflexivity.
  - rewrite (IH p Hp). destruct (lastWithId id l) as [[i found]|]; [reflexivity|].
    destruct (itemId y =? id); reflexivity.
Qed.

Lemma getItemForId_insert (id : Z) (cb : ComboBox) (p : nat) (item item' : ItemInfo) :
  getItemForId id cb = Some (p, item) -> itemId item' = itemId item ->
  getItemForId id (set_items (<[p := item']> (items cb)) cb) = Some (p, item').
Proof.
  intros E Hid. pose proof (getItemForId_Some _ _ _ _ E) as (Hp & _ & _).
  unfold getItemForId in *. destruct (negb (id =? 0)); [|discriminate]. simpl.
  rewrite (lastWithId_insert id _ p item item' Hp Hid), E, Nat.eqb_refl. reflexivity.
Qed.

(** X2.  [setItemEnabled] writes the flag into the last item of the
    store that bears the id, and into no other: a later lookup of the id
    returns that item with the new flag, every other position of the store
    is as before, and no item behind it bears the id.  For an id that is
    not in the store (or 0) nothing changes. *)
Theorem X2_setItemEnabled_last_match (cb : ComboBox) (id : Z) (b : bool) :
  (forall p item, getItemForId id cb = Some (p, item) ->
     getItemForId id (setItemEnabled id b cb) = Some (p, withEnabled b item)
     /\ items (setItemEnabled id b cb) !! p = Some (withEnabled b item)
     /\ (forall q, q <> p -> items (setItemEnabled id b cb) !! q = items cb !! q)
     /\ (forall q x, (p < q)%nat -> items cb !! q = Some x -> itemId x <> id))
  /\ (id = 0 \/ (forall it, it ∈ items cb -> itemId it <> id) ->
        setItemEnabled id b cb = cb).
Proof.
  split.
  - intros p item E. pose proof (getItemForId_Some _ _ _ _ E) as (Hp & _ & _).
    unfold setItemEnabled. rewrite E. split; [|split; [|split]].
    + apply (getItemForId_insert id cb p item); [exact E | reflexivity].
    + simpl. apply list_lookup_insert_eq. eapply lookup_lt_Some. exact Hp.
    + intros q Hq. simpl. apply list_lookup_insert_ne. congruence.
    + unfold getItemForId in E. destruct (negb (id =? 0)); [|discriminate].
      apply (lastWithId_last id _ p item E).
  - intros H. apply getItemForId_None in H. unfold setItemEnabled. rewrite H. reflexivity.
Qed.

Lemma X2_witness :
  getItemForId 2 (setItemEnabled 2 false (run paletteCalls freshBox))
  = Some (1%nat, mkItemInfo "Green" 2 false false)
  /\ setItemEnabled 9 false (run paletteCalls freshBox) = run paletteCalls freshBox.
Proof.
  split.
  - apply (proj1 (X2_setItemEnabled_last_match (run paletteCalls freshBox) 2 false)
                 1%nat (realItem "Green" 2)).
    reflexivity.
  - apply (proj2 (X2_setItemEnabled_last_match (run paletteCalls freshBox) 9 false)).
    right. intros it Hin. store_cases Hin.
Defined.

(** ** Items that differ in the enabled flag only *)

Lemma sameButEnabled_real (a b : ItemInfo) :
  sameButEnabled a b -> isRealItem a = isRealItem b.
Proof. intros (Hn & _ & Hh). unfold isRealItem. rewrite Hn, Hh. reflexivity. Qed.

Lemma sameButEnabled_insert (l : list ItemInfo) (p : nat) (it it' : ItemInfo) :
  l !! p = Some it -> sameButEnabled it it' ->
  Forall2 sameButEnabled l (<[p := it']> l).
Proof.
  intros Hp Hs. revert p Hp. induction l as [|y l IH]; intros p Hp; [constructor|].
  destruct p as [|p]; simpl in *.
  - inversion Hp; subst y. constructor; [exact Hs|].
    clear. induction l as [|z l IH]; constructor; [repeat split | exact IH].
  - constructor; [repeat split | apply IH, Hp].
Qed.

Lemma sameButEnabled_refl (l : list ItemInfo) : Forall2 sameButEnabled l l.
Proof. induction l as [|z l IH]; constructor; [repeat split | exact IH]. Qed.

Lemma sameButEnabled_count (l l' : list ItemInfo) :
  Forall2 sameButEnabled l l' -> countRealItems l = countRealItems l'.
Proof.
  induction 1 as [|a b l l' Hab Hl IH]; simpl; [reflexivity|].
  rewrite IH, (sameButEnabled_real a b Hab). reflexivity.
Qed.

Lemma sameButEnabled_indexOf (l l' : list ItemInfo) (n id : Z) :
  Forall2 sameButEnabled l l' -> indexOfIdFrom n id l = indexOfIdFrom n id l'.
Proof.
  intros H. revert n. induction H as [|a b l l' Hab Hl IH]; intros n; simpl; [reflexivity|].
  rewrite (sameButEnabled_real a b Hab), !IH.
  destruct Hab as (_ & -> & _). reflexivity.
Qed.

Lemma sameButEnabled_realItemAt (l l' : list ItemInfo) (n index : Z) :
  Forall2 sameButEnabled l l' ->
  match realItemAt n index l, realItemAt n index l' with
  | Some a, Some b => sameButEnabled a b
  | None, None => True
  | _, _ => False
  end.
Proof.
  intros H. revert n. induction H as [|a b l l' Hab Hl IH]; intros n; simpl; [exact I|].
  rewrite (sameButEnabled_real a b Hab).
  destruct (isRealItem b); [|apply IH].
  destruct (n =? index); [exact Hab | apply IH].
Qed.

Lemma sameButEnabled_lastWithId (l l' : list ItemInfo) (id : Z) :
  Forall2 sameButEnabled l l' ->
  match lastWithId id l, lastWithId id l' with
  | Some (p, a), Some (q, b) => p = q /\ sameButEnabled a b
  | None, None => True
  | _, _ => False
  end.
Proof.
  induction 1 as [|a b l l' Hab Hl IH]; simpl; [exact I|].
  destruct (lastWithId id l) as [[p x]|], (lastWithId id l') as [[q y]|];
    try contradiction.
  - destruct IH as [-> Hxy]. auto.
  - destruct Hab as (Hn & Hi & Hh). rewrite Hi.
    destruct (itemId b =? id); [repeat split; assumption | exact I].
Qed.

(** X1.  [setItemEnabled] changes nothing that the lookups or the
    selection report: the number of items, the text and id at every index,
    the index of every id, the label text, the selected id and the selected
    index are as before. *)
Theorem X1_setItemEnabled_keeps_lookups (cb : ComboBox) (id : Z) (b : bool) :
  getNumItems (setItemEnabled id b cb) = getNumItems cb
  /\ (forall i, getItemText i (setItemEnabled id b cb) = getItemText i cb)
  /\ (forall i, getItemId i (setItemEnabled id b cb) = getItemId i cb)
  /\ (forall x, indexOfItemId x (setItemEnabled id b cb) = indexOfItemId x cb)
  /\ getText (setItemEnabled id b cb) = getText cb
  /\ getSelectedId (setItemEnabled id b cb) = getSelectedId cb
  /\ getSelectedItemIndex (setItemEnabled id b cb) = getSelectedItemIndex cb.
Proof.
  assert (Hrel : Forall2 sameButEnabled (items cb) (items (setItemEnabled id b cb))).
  { unfold setItemEnabled. destruct (getItemForId id cb) as [[p item]|] eqn:E.
    - apply getItemForId_Some in E as (Hp & _). simpl.
      apply (sameButEnabled_insert _ p item); [exact Hp | repeat split].
    - apply sameButEnabled_refl. }
  assert (Hlabel : label (setItemEnabled id b cb) = label cb).
  { unfold setItemEnabled. destruct (getItemForId id cb) as [[p item]|]; reflexivity. }
  assert (Hcur : currentId (setItemEnabled id b cb) = currentId cb).
  { unfold setItemEnabled. destruct (getItemForId id cb) as [[p item]|]; reflexivity. }
  assert (Htext : forall i, getItemText i (setItemEnabled id b cb) = getItemText i cb).
  { intros i. unfold getItemText, getItemForIndex.
    pose proof (sameButEnabled_realItemAt _ _ 0 i Hrel) as H.
    destruct (realItemAt 0 i (items cb)), (realItemAt 0 i (items (setItemEnabled id b cb)));
      try contradiction; [|reflexivity].
    destruct H as (Hn & _). congruence. }
  assert (Hidx : forall x, indexOfItemId x (setItemEnabled id b cb) = indexOfItemId x cb).
  { intros x. unfold indexOfItemId. symmetry. apply sameButEnabled_indexOf, Hrel. }
  split; [|split; [|split; [|split; [|split; [|split]]]]].
  - unfold getNumItems. symmetry. apply sameButEnabled_count, Hrel.
  - exact Htext.
  - intros i. unfold getItemId, getItemForIndex.
    pose proof (sameButEnabled_realItemAt _ _ 0 i Hrel) as H.
    destruct (realItemAt 0 i (items cb)), (realItemAt 0 i (items (setItemEnabled id b cb)));
      try contradiction; [|reflexivity].
    destruct H as (_ & Hi & _). congruence.
  - exact Hidx.
  - unfold getText. rewrite Hlabel. reflexivity.
  - unfold getSelectedId, getItemForId, getText. rewrite Hcur, Hlabel.
    destruct (negb (currentId cb =? 0)); [|reflexivity].
    pose proof (sameButEnabled_lastWithId _ _ (currentId cb) Hrel) as H.
    destruct (lastWithId (currentId cb) (items cb)) as [[p x]|],
             (lastWithId (currentId cb) (items (setItemEnabled id b cb))) as [[q y]|];
      try contradiction; [|reflexivity].
    destruct H as (_ & Hn & Hi & _). rewrite Hn, Hi. reflexivity.
  - unfold getSelectedItemIndex. rewrite Hidx, Hcur, Htext.
    unfold getText. rewrite Hlabel. reflexivity.
Qed.

(** ** Renaming *)

Lemma getItemForIndex_indexOfItemId (cb : ComboBox) (id : Z) :
  (exists x, x ∈ items cb /\ isRealItem x = true /\ itemId x = id) ->
  exists item, getItemForIndex (indexOfItemId id cb) cb = Some item
               /\ item ∈ items cb /\ isRealItem item = true /\ itemId item = id.
Proof.
  intros Hex. apply first_real_with_id in Hex
    as (l1 & item & l2 & Hl & Hreal & Hid & Hbefore).
  exists item. unfold getItemForIndex, indexOfItemId. rewrite Hl.
  rewrite (indexOfIdFrom_first l1 l2 item 0 id Hreal Hid Hbefore).
  rewrite (realItemAt_nth l1 l2 item 0 Hreal).
  split; [reflexivity|]. split; [|auto].
  apply elem_of_app. right. apply elem_of_cons. left. reflexivity.
Qed.

Lemma unique_item (l : list ItemInfo) (a b : ItemInfo) :
  uniqueIds l -> a ∈ l -> b ∈ l -> itemId a = itemId b -> itemId a <> 0 -> a = b.
Proof.
  intros Hu Ha Hb Hab Hnz.
  apply list_elem_of_lookup_1 in Ha as [i Hi]. apply list_elem_of_lookup_1 in Hb as [j Hj].
  assert (i = j) by exact (Hu i j a b Hi Hj Hab Hnz). subst j. congruence.
Qed.



(** ** Appending *)

Lemma pendingSeparator_realItems (cb : ComboBox) : realItems (pendingSeparator cb) = [].
Proof. unfold pendingSeparator. destruct (separatorPending cb); reflexivity. Qed.

Lemma lastWithId_pending (id : Z) (cb : ComboBox) :
  id <> 0 ->
  lastWithId id (items cb ++ pendingSeparator cb) = lastWithId id (items cb).
Proof.
  intros Hnz. unfold pendingSeparator. destruct (separatorPending cb).
  - rewrite lastWithId_snoc. change (itemId separatorItem) with 0.
    destruct (Z.eqb_spec 0 id); [congruence | reflexivity].
  - rewrite app_nil_r. reflexivity.
Qed.

(** X4.  An accepted [addItem] (text not empty, id not 0) puts the item
    behind the real items there are: [getNumItems] grows by one, the new
    text and id are at the old [getNumItems ()], the items at the lower
    indexes are as before, a lookup of the new id returns the new item
    (also when the id was in the store already), and lookups of other ids
    are as before. *)
Theorem X4_addItem_appends (cb : ComboBox) (t : string) (id : Z) :
  isNotEmpty t = true -> id <> 0 ->
  getNumItems (addItem t id cb) = getNumItems cb + 1
  /\ getItemText (getNumItems cb) (addItem t id cb) = t
  /\ getItemId (getNumItems cb) (addItem t id cb) = id
  /\ (forall i, i < getNumItems cb ->
        getItemForIndex i (addItem t id cb) = getItemForIndex i cb)
  /\ getItemForId id (addItem t id cb)
     = Some (length (items cb ++ pendingSeparator cb), realItem t id)
  /\ (forall x, x <> id -> getItemForId x (addItem t id cb) = getItemForId x cb).
Proof.
  intros Ht Hnz.
  assert (Hreal : isRealItem (realItem t id) = true) by exact Ht.
  assert (Hitems : items (addItem t id cb)
                   = (items cb ++ pendingSeparator cb) ++ [realItem t id]).
  { pose proof (step_items (AddItem t id) cb) as H. simpl in H.
    apply Z.eqb_neq in Hnz. rewrite Ht, Hnz in H. simpl in H.
    rewrite H, app_assoc. reflexivity. }
  assert (Hvis : realItems (items (addItem t id cb))
                 = realItems (items cb) ++ [realItem t id]).
  { rewrite Hitems, !realItems_app, pendingSeparator_realItems, app_nil_r.
    simpl. rewrite Hreal. reflexivity. }
  assert (Hat : getItemForIndex (getNumItems cb) (addItem t id cb)
                = Some (realItem t id)).
  { rewrite getItemForIndex_realItems, Hvis. unfold getNumItems.
    rewrite countRealItems_realItems.
    destruct (Z.ltb_spec (Z.of_nat (length (realItems (items cb)))) 0); [lia|].
    rewrite Nat2Z.id. apply list_lookup_middle. reflexivity. }
  split; [|split; [|split; [|split; [|split]]]].
  - unfold getNumItems. rewrite !countRealItems_realItems, Hvis, length_app. simpl. lia.
  - unfold getItemText. rewrite Hat. reflexivity.
  - unfold getItemId. rewrite Hat. reflexivity.
  - intros i Hi. rewrite !getItemForIndex_realItems, Hvis.
    destruct (Z.ltb_spec i 0); [reflexivity|].
    apply lookup_app_l. unfold getNumItems in Hi.
    rewrite countRealItems_realItems in Hi. lia.
  - unfold getItemForId. apply Z.eqb_neq in Hnz. rewrite Hnz. simpl.
    rewrite Hitems, lastWithId_snoc. simpl. rewrite Z.eqb_refl. reflexivity.
  - intros x Hx. unfold getItemForId.
    destruct (Z.eqb_spec x 0) as [H0|H0]; simpl; [reflexivity|].
    rewrite Hitems, lastWithId_snoc. simpl.
    destruct (Z.eqb_spec id x); [congruence|]. apply lastWithId_pending, H0.
Qed.

Lemma X4_witness :
  getNumItems (addItem "Cyan" 4 (run paletteCalls freshBox)) = 4
  /\ getItemText 3 (addItem "Cyan" 4 (run paletteCalls freshBox)) = "Cyan".
Proof.
  destruct (X4_addItem_appends (run paletteCalls freshBox) "Cyan" 4)
    as (Hn & Ht & _); [reflexivity | discriminate|].
  split; [exact Hn | exact Ht].
Defined.

Lemma indexOfIdFrom_app_hidden (l l' : list ItemInfo) (n id : Z) :
  realItems l' = [] -> indexOfIdFrom n id (l ++ l') = indexOfIdFrom n id l.
Proof.
  intros Hhidden. revert n. induction l as [|x l IH]; intros n; simpl.
  - apply indexOfIdFrom_absent. intros y Hy Hr.
    assert (Hin : y ∈ realItems l') by (apply elem_of_realItems; auto).
    rewrite Hhidden in Hin. inversion Hin.
  - rewrite !IH. reflexivity.
Qed.

Lemma lastRealNamed_app_hidden (t : string) (l l' : list ItemInfo) :
  realItems l' = [] -> lastRealNamed t (l ++ l') = lastRealNamed t l.
Proof.
  intros Hhidden.
  assert (Hnone : lastRealNamed t l' = None).
  { apply lastRealNamed_None. intros y Hy Hr.
    assert (Hin : y ∈ realItems l') by (apply elem_of_realItems; auto).
    rewrite Hhidden in Hin. inversion Hin. }
  induction l as [|x l IH]; simpl; [exact Hnone|]. rewrite IH. reflexivity.
Qed.

(** X8.  A section heading, and the separator that is materialised with
    it, cannot be seen through the item functions: after
    [addSectionHeading] the number of items, the item at every index, the
    index of every id, the item of every id, the match of every text in
    [setText], the selected id and the selected index are as before. *)
Theorem X8_addSectionHeading_is_hidden (cb : ComboBox) (h : string) :
  getNumItems (addSectionHeading h cb) = getNumItems cb
  /\ (forall i, getItemForIndex i (addSectionHeading h cb) = getItemForIndex i cb)
  /\ (forall id, indexOfItemId id (addSectionHeading h cb) = indexOfItemId id cb)
  /\ (forall id, getItemForId id (addSectionHeading h cb) = getItemForId id cb)
  /\ (forall t, lastRealNamed t (items (addSectionHeading h cb))
                = lastRealNamed t (items cb))
  /\ getSelectedId (addSectionHeading h cb) = getSelectedId cb
  /\ getSelectedItemIndex (addSectionHeading h cb) = getSelectedItemIndex cb.
Proof.
  destruct (isNotEmpty h) eqn:Hh;
    [|unfold addSectionHeading; rewrite Hh; repeat split; reflexivity].
  assert (Hitems : items (addSectionHeading h cb)
                   = items cb ++ (pendingSeparator cb ++ [headingItem h])).
  { pose proof (step_items (AddSectionHeading h) cb) as H. simpl in H.
    rewrite Hh in H. exact H. }
  assert (Hhidden : realItems (pendingSeparator cb ++ [headingItem h]) = []).
  { rewrite realItems_app, pendingSeparator_realItems. reflexivity. }
  assert (Hlabel : label (addSectionHeading h cb) = label cb).
  { unfold addSectionHeading, flushSeparator. rewrite Hh.
    destruct (separatorPending cb); reflexivity. }
  assert (Hcur : currentId (addSectionHeading h cb) = currentId cb).
  { unfold addSectionHeading, flushSeparator. rewrite Hh.
    destruct (separatorPending cb); reflexivity. }
  assert (Hat : forall i, getItemForIndex i (addSectionHeading h cb) = getItemForIndex i cb).
  { intros i. rewrite !getItemForIndex_realItems, Hitems, realItems_app, Hhidden, app_nil_r.
    reflexivity. }
  assert (Hidx : forall id, indexOfItemId id (addSectionHeading h cb) = indexOfItemId id cb).
  { intros id. unfold indexOfItemId. rewrite Hitems.
    apply indexOfIdFrom_app_hidden, Hhidden. }
  assert (Hfor : forall id, getItemForId id (addSectionHeading h cb) = getItemForId id cb).
  { intros id. unfold getItemForId.
    destruct (Z.eqb_spec id 0) as [H0|H0]; simpl; [reflexivity|].
    rewrite Hitems, app_assoc, lastWithId_snoc. change (itemId (headingItem h)) with 0.
    destruct (Z.eqb_spec 0 id); [congruence|]. apply lastWithId_pending, H0. }
  split; [|split; [|split; [|split; [|split; [|split]]]]].
  - unfold getNumItems.
    rewrite !countRealItems_realItems, Hitems, realItems_app, Hhidden, app_nil_r.
    reflexivity.
  - exact Hat.
  - exact Hidx.
  - exact Hfor.
  - intros t. rewrite Hitems. apply lastRealNamed_app_hidden, Hhidden.
  - unfold getSelectedId, getText. rewrite Hcur, Hfor, Hlabel. reflexivity.
  - unfold getSelectedItemIndex, getItemText, getText. rewrite Hcur, Hidx, Hat, Hlabel.
    reflexivity.
Qed.

(** ** The order of the items *)

Lemma step_build_realItems (op : Op) (cb : ComboBox) :
  isBuildCall op = true ->
  realItems (items (step op cb))
  = realItems (items cb) ++ ((fun a => realItem (fst a) (snd a)) <$> addedItems [op]).
Proof.
  intros Hb. rewrite step_items. destruct op; try discriminate; simpl in *.
  - rewrite Hb. apply andb_true_iff in Hb as [Ht _].
    rewrite !realItems_app, pendingSeparator_realItems. simpl.
    unfold isRealItem. simpl. unfold isNotEmpty in Ht. rewrite Ht. reflexivity.
  - rewrite app_nil_r. reflexivity.
  - destruct (isNotEmpty headingName); [|rewrite app_nil_r; reflexivity].
    rewrite !realItems_app, pendingSeparator_realItems. simpl.
    rewrite app_nil_r. reflexivity.
Qed.

Lemma addedItems_cons (op : Op) (ops : list Op) :
  addedItems (op :: ops) = addedItems [op] ++ addedItems ops.
Proof. destruct op; reflexivity. Qed.

Lemma run_build_realItems (ops : list Op) (cb : ComboBox) :
  forallb isBuildCall ops = true ->
  realItems (items (run ops cb))
  = realItems (items cb) ++ ((fun a => realItem (fst a) (snd a)) <$> addedItems ops).
Proof.
  revert cb. induction ops as [|op ops IH]; intros cb Hb.
  - simpl. rewrite app_nil_r. reflexivity.
  - simpl in Hb. apply andb_true_iff in Hb as [Hop Hops].
    simpl run. rewrite (IH _ Hops), (step_build_realItems op cb Hop).
    rewrite (addedItems_cons op ops), fmap_app, app_assoc. reflexivity.
Qed.

(** X9.  The items are reported in the order in which they were added:
    after a sequence of accepted [addItem] calls, with [addSeparator] and
    [addSectionHeading] calls in between, on a widget whose store was
    empty, the item at index [i] is the one of the [i]-th [addItem] call,
    with its text and id and enabled. *)
Theorem X9_items_in_call_order (ops : list Op) (cb0 : ComboBox)
    (i : nat) (t : string) (id : Z) :
  items cb0 = [] ->
  forallb isBuildCall ops = true ->
  addedItems ops !! i = Some (t, id) ->
  getItemForIndex (Z.of_nat i) (run ops cb0) = Some (realItem t id)
  /\ getItemText (Z.of_nat i) (run ops cb0) = t
  /\ getItemId (Z.of_nat i) (run ops cb0) = id.
Proof.
  intros Hempty Hbuild Hi.
  assert (Hat : getItemForIndex (Z.of_nat i) (run ops cb0) = Some (realItem t id)).
  { rewrite getItemForIndex_realItems, (run_build_realItems ops cb0 Hbuild), Hempty.
    destruct (Z.ltb_spec (Z.of_nat i) 0); [lia|].
    rewrite Nat2Z.id. simpl. rewrite list_lookup_fmap, Hi. reflexivity. }
  unfold getItemText, getItemId. rewrite Hat. auto.
Qed.

Lemma X9_witness :
  getItemForIndex 2 (run paletteCalls freshBox) = Some (realItem "Blue" 3)
  /\ getItemText 2 (run paletteCalls freshBox) = "Blue"
  /\ getItemId 2 (run paletteCalls freshBox) = 3.
Proof.
  apply (X9_items_in_call_order paletteCalls freshBox 2%nat "Blue" 3); reflexivity.
Defined.

(** ** Selecting by index *)

Lemma indexOfItemId_bounds (cb : ComboBox) (id : Z) :
  -1 <= indexOfItemId id cb < getNumItems cb.
Proof.
  unfold indexOfItemId, getNumItems.
  destruct (real_or_absent (items cb) id) as [Hex|Habs].
  - pose proof (indexOfIdFrom_present (items cb) 0 id Hex). lia.
  - rewrite (indexOfIdFrom_absent _ 0 id Habs).
    pose proof (countRealItems_nonneg (items cb)). lia.
Qed.

Lemma getSelectedItemIndex_bounds (cb : ComboBox) :
  -1 <= getSelectedItemIndex cb < getNumItems cb.
Proof.
  unfold getSelectedItemIndex.
  pose proof (indexOfItemId_bounds cb (currentId cb)).
  destruct (negb _); lia.
Qed.

Lemma real_item_found (cb : ComboBox) (item : ItemInfo) :
  reach freshIds cb -> item ∈ items cb -> isRealItem item = true ->
  itemId item <> 0
  /\ (exists p, getItemForId (itemId item) cb = Some (p, item))
  /\ getItemForIndex (indexOfItemId (itemId item) cb) cb = Some item.
Proof.
  intros Hr Hin Hreal.
  assert (Hnz : itemId item <> 0).
  { apply wellFormed_real_nonzero; [|exact Hreal].
    exact (proj1 (Forall_forall _ _) (reachable_wellFormed cb (reach_weaken _ _ Hr)) item Hin). }
  pose proof (reach_uniqueIds cb Hr) as Hu.
  split; [exact Hnz|]. split.
  - destruct (getItemForId_known (itemId item) cb item Hnz Hin eq_refl) as (p & found & E).
    exists p. rewrite E. f_equal. f_equal.
    apply getItemForId_Some in E as (Hp & Hid & _).
    apply (unique_item (items cb)); try assumption.
    + eapply list_elem_of_lookup_2. exact Hp.
    + congruence.
  - destruct (getItemForIndex_indexOfItemId cb (itemId item)) as (found & Hat & Hfin & _ & Hfid).
    { exists item. auto. }
    rewrite Hat. f_equal. apply (unique_item (items cb)); try assumption. congruence.
Qed.

Lemma indexOfItemId_at (cb : ComboBox) (i : Z) (item : ItemInfo) :
  reach freshIds cb -> getItemForIndex i cb = Some item ->
  indexOfItemId (itemId item) cb = i.
Proof.
  intros Hr Hat.
  assert (Hin : item ∈ items cb /\ isRealItem item = true).
  { rewrite getItemForIndex_realItems in Hat. destruct (i <? 0); [discriminate|].
    apply list_elem_of_lookup_2, elem_of_realItems in Hat. exact Hat. }
  destruct Hin as [Hin Hreal].
  destruct (real_item_found cb item Hr Hin Hreal) as (Hnz & _ & _).
  unfold getItemForIndex in Hat.
  apply realItemAt_split in Hat as (l1 & l2 & Hl & _ & Hidx).
  unfold indexOfItemId. rewrite Hl, Hidx.
  apply indexOfIdFrom_first; [exact Hreal | reflexivity|].
  intros x Hx _. apply (unique_before l1 l2 item); [| exact Hnz | exact Hx].
  rewrite <- Hl. apply reach_uniqueIds, Hr.
Qed.

Lemma getSelectedItemIndex_eq (cb1 cb2 : ComboBox) :
  items cb1 = items cb2 -> currentId cb1 = currentId cb2 -> getText cb1 = getText cb2 ->
  getSelectedItemIndex cb1 = getSelectedItemIndex cb2.
Proof.
  intros Hi Hc Ht.
  unfold getSelectedItemIndex, getItemText, getItemForIndex, indexOfItemId.
  rewrite Hi, Hc, Ht. reflexivity.
Qed.

Lemma selected_item_index (cb : ComboBox) (i : Z) (item : ItemInfo) :
  reach freshIds cb -> getItemForIndex i cb = Some item ->
  currentId cb = itemId item -> getText cb = name item ->
  getSelectedItemIndex cb = i.
Proof.
  intros Hr Hat Hc Ht. unfold getSelectedItemIndex, getItemText.
  rewrite Hc, (indexOfItemId_at cb i item Hr Hat), Hat, Ht, String.eqb_refl.
  reflexivity.
Qed.

Lemma reach_tidyStore (cb : ComboBox) : reach freshIds cb -> tidyStore (items cb).
Proof.
  intros Hr. split; [apply reach_uniqueIds, Hr|].
  apply reachable_wellFormed, (reach_weaken _ _ Hr).
Qed.

Lemma tidy_item_found (cb : ComboBox) (item : ItemInfo) :
  tidyStore (items cb) -> item ∈ items cb -> isRealItem item = true ->
  itemId item <> 0
  /\ (exists p, getItemForId (itemId item) cb = Some (p, item))
  /\ getItemForIndex (indexOfItemId (itemId item) cb) cb = Some item.
Proof.
  intros [Hu Hwf] Hin Hreal.
  assert (Hnz : itemId item <> 0).
  { apply wellFormed_real_nonzero; [|exact Hreal].
    exact (proj1 (Forall_forall _ _) Hwf item Hin). }
  split; [exact Hnz|]. split.
  - destruct (getItemForId_known (itemId item) cb item Hnz Hin eq_refl) as (p & found & E).
    exists p. rewrite E. f_equal. f_equal.
    apply getItemForId_Some in E as (Hp & Hid & _).
    apply (unique_item (items cb)); try assumption.
    + eapply list_elem_of_lookup_2. exact Hp.
    + congruence.
  - destruct (getItemForIndex_indexOfItemId cb (itemId item)) as (found & Hat & Hfin & _ & Hfid).
    { exists item. auto. }
    rewrite Hat. f_equal. apply (unique_item (items cb)); try assumption. congruence.
Qed.

Lemma tidy_indexOfItemId_at (cb : ComboBox) (i : Z) (item : ItemInfo) :
  tidyStore (items cb) -> getItemForIndex i cb = Some item ->
  indexOfItemId (itemId item) cb = i.
Proof.
  intros Htidy Hat.
  assert (Hin : item ∈ items cb /\ isRealItem item = true).
  { rewrite getItemForIndex_realItems in Hat. destruct (i <? 0); [discriminate|].
    apply list_elem_of_lookup_2, elem_of_realItems in Hat. exact Hat. }
  destruct Hin as [Hin Hreal].
  destruct (tidy_item_found cb item Htidy Hin Hreal) as (Hnz & _ & _).
  unfold getItemForIndex in Hat.
  apply realItemAt_split in Hat as (l1 & l2 & Hl & _ & Hidx).
  unfold indexOfItemId. rewrite Hl, Hidx.
  apply indexOfIdFrom_first; [exact Hreal | reflexivity|].
  intros x Hx _. apply (unique_before l1 l2 item); [| exact Hnz | exact Hx].
  rewrite <- Hl. exact (proj1 Htidy).
Qed.

Lemma setSelectedItemIndex_inside (cb : ComboBox) (i : Z) (d : bool) :
  tidyStore (items cb) -> synced cb -> 0 <= i < getNumItems cb ->
  getSelectedItemIndex (setSelectedItemIndex i d cb) = i
  /\ getSelectedId (setSelectedItemIndex i d cb) = getItemId i cb
  /\ getText (setSelectedItemIndex i d cb) = getItemText i cb.
Proof.
  intros Htidy Hs Hi.
  destruct (getItemForIndex_inside cb i Hi) as (item & Hat & Hin & Hreal).
  destruct (tidy_item_found cb item Htidy Hin Hreal) as (Hnz & (p & Hfound) & _).
  unfold setSelectedItemIndex, getItemId, getItemText. rewrite Hat.
  assert (Hitems : items (setSelectedId (itemId item) d cb) = items cb)
    by apply setSelectedId_items.
  assert (Htext : getText (setSelectedId (itemId item) d cb) = name item).
  { rewrite setSelectedId_getText, Hfound. reflexivity. }
  assert (Hcur : currentId (setSelectedId (itemId item) d cb) = itemId item)
    by apply setSelectedId_currentId, Hs.
  split; [|split].
  - unfold getSelectedItemIndex, getItemText. rewrite Hcur, Htext.
    assert (Hidx : indexOfItemId (itemId item) (setSelectedId (itemId item) d cb) = i).
    { apply tidy_indexOfItemId_at.
      - rewrite Hitems. exact Htidy.
      - unfold getItemForIndex. rewrite Hitems. exact Hat. }
    rewrite Hidx. unfold getItemForIndex. rewrite Hitems.
    fold (getItemForIndex i cb). rewrite Hat, String.eqb_refl. reflexivity.
  - rewrite (setSelectedId_getSelectedId _ d cb Hs), Hfound. reflexivity.
  - exact Htext.
Qed.

Lemma setSelectedItemIndex_outside (cb : ComboBox) (i : Z) (d : bool) :
  tidyStore (items cb) -> synced cb -> i < 0 \/ getNumItems cb <= i ->
  getSelectedItemIndex (setSelectedItemIndex i d cb) = -1
  /\ getSelectedId (setSelectedItemIndex i d cb) = 0
  /\ getText (setSelectedItemIndex i d cb) = "".
Proof.
  intros [_ Hwf] Hs Ho.
  unfold setSelectedItemIndex, getItemId. rewrite (getItemForIndex_outside cb i Ho).
  assert (Hnone : getItemForId 0 cb = None) by reflexivity.
  split; [|split].
  - apply getSelectedItemIndex_absent.
    rewrite setSelectedId_items, (setSelectedId_currentId 0 d cb Hs).
    intros x Hx Hreal. apply wellFormed_real_nonzero; [|exact Hreal].
    exact (proj1 (Forall_forall _ _) Hwf x Hx).
  - rewrite (setSelectedId_getSelectedId 0 d cb Hs), Hnone. reflexivity.
  - rewrite setSelectedId_getText, Hnone. reflexivity.
Qed.

(** X11.  [setSelectedItemIndex] and [getSelectedItemIndex] are
    inverse on a store without reused ids, in a state in which
    [lastCurrentId] equals [currentId] (every state reached through the
    functions of the widget; not so after an outside write to the bound
    value that [valueChanged] has not yet seen): for an index from 0 up to
    [getNumItems () - 1] the selected index is afterwards that index, the
    selected id is the id at that index and the label shows the text at
    that index.  For any other index the selection is cleared: index -1,
    id 0, empty label. *)
Theorem X11_setSelectedItemIndex_round_trip (cb : ComboBox) (i : Z) (d : bool) :
  tidyStore (items cb) -> synced cb ->
  (0 <= i < getNumItems cb ->
     getSelectedItemIndex (setSelectedItemIndex i d cb) = i
     /\ getSelectedId (setSelectedItemIndex i d cb) = getItemId i cb
     /\ getText (setSelectedItemIndex i d cb) = getItemText i cb)
  /\ (i < 0 \/ getNumItems cb <= i ->
        getSelectedItemIndex (setSelectedItemIndex i d cb) = -1
        /\ getSelectedId (setSelectedItemIndex i d cb) = 0
        /\ getText (setSelectedItemIndex i d cb) = "").
Proof.
  intros Htidy Hs. split.
  - apply setSelectedItemIndex_inside; assumption.
  - apply setSelectedItemIndex_outside; assumption.
Qed.

Lemma X11_witness :
  tidyStore (items (run paletteCalls freshBox))
  /\ synced (run paletteCalls freshBox)
  /\ getSelectedItemIndex (setSelectedItemIndex 2 false (run paletteCalls freshBox)) = 2
  /\ getText (setSelectedItemIndex 2 false (run paletteCalls freshBox)) = "Blue"
  /\ getSelectedId (setSelectedItemIndex 7 false (run paletteCalls freshBox)) = 0.
Proof.
  assert (Htidy : tidyStore (items (run paletteCalls freshBox))).
  { apply reach_tidyStore, reach_run; [apply reach_new | reflexivity]. }
  assert (Hs : synced (run paletteCalls freshBox)) by reflexivity.
  destruct (X11_setSelectedItemIndex_round_trip (run paletteCalls freshBox) 2 false Htidy Hs)
    as [Hin _].
  destruct (X11_setSelectedItemIndex_round_trip (run paletteCalls freshBox) 7 false Htidy Hs)
    as [_ Hout].
  destruct Hin as (H1 & _ & H2); [vm_compute; split; [discriminate | reflexivity]|].
  destruct Hout as (_ & H3 & _); [right; vm_compute; discriminate|].
  split; [exact Htidy|]. split; [exact Hs|].
  split; [exact H1|]. split; [exact H2 | exact H3].
Defined.

(** X12.  On a store without reused ids and without items renamed to
    the empty string, the two ways of reading the selection agree: the
    selected id is the id at the selected index (0 when the index
    is -1). *)
Theorem X12_selected_id_is_id_at_selected_index (cb : ComboBox) :
  reach freshIdsAndNonEmptyRenames cb ->
  getSelectedId cb = getItemId (getSelectedItemIndex cb) cb.
Proof.
  intros Hr.
  assert (Hr1 : reach nonEmptyRenames cb).
  { apply (reach_impl freshIdsAndNonEmptyRenames); [|exact Hr].
    intros op st H. apply andb_true_iff in H. tauto. }
  assert (Hr2 : reach freshIds cb).
  { apply (reach_impl freshIdsAndNonEmptyRenames); [|exact Hr].
    intros op st H. apply andb_true_iff in H. tauto. }
  pose proof (reachable_wellFormed cb (reach_weaken _ _ Hr)) as Hwf.
  rewrite Forall_forall in Hwf.
  assert (Hminus : getItemId (-1) cb = 0).
  { unfold getItemId. rewrite (getItemForIndex_outside cb (-1)); [reflexivity | lia]. }
  unfold getSelectedId.
  destruct (getItemForId (currentId cb) cb) as [[p item]|] eqn:E.
  - apply getItemForId_Some in E as (Hp & Hid & Hnz).
    assert (Hin : item ∈ items cb) by (eapply list_elem_of_lookup_2; exact Hp).
    assert (Hreal : isRealItem item = true).
    { pose proof (proj1 (Forall_forall _ _) (reach_named cb Hr1) item Hin) as Hn.
      apply isRealItem_true.
      destruct (Hwf item Hin) as [-> | [[_ [H0 _]] | [Hh _]]];
        [simpl in Hid; congruence | congruence|].
      split; [exact Hh | apply Hn; congruence]. }
    destruct (real_item_found cb item Hr2 Hin Hreal) as (_ & _ & Hat).
    rewrite Hid in Hat.
    unfold getSelectedItemIndex, getItemText. rewrite Hat.
    destruct (String.eqb (getText cb) (name item)); simpl.
    + unfold getItemId. rewrite Hat. reflexivity.
    + symmetry. exact Hminus.
  - rewrite getSelectedItemIndex_absent; [symmetry; exact Hminus|].
    intros x Hx Hreal Hxid. apply getItemForId_None in E as [E|E].
    + apply (wellFormed_real_nonzero x (Hwf x Hx) Hreal). congruence.
    + exact (E x Hx Hxid).
Qed.

Lemma X12_witness :
  getSelectedId (run (paletteCalls ++ [SetText "Green" false]) freshBox)
  = getItemId (getSelectedItemIndex (run (paletteCalls ++ [SetText "Green" false]) freshBox))
              (run (paletteCalls ++ [SetText "Green" false]) freshBox).
Proof.
  apply X12_selected_id_is_id_at_selected_index.
  apply reach_run; [apply reach_new | reflexivity].
Defined.

(** ** The label text *)

(** X13.  On a store without reused ids [setText] always leaves its
    argument in the label: [getText] afterwards returns the text passed,
    whether it names an item or not. *)
Theorem X13_setText_then_getText (cb : ComboBox) (t : string) (d : bool) :
  reach freshIds cb -> getText (setText t d cb) = t.
Proof.
  intros Hr. destruct (lastRealNamed t (items cb)) as [item|] eqn:E.
  - apply lastRealNamed_Some in E as (Hin & Hreal & Hname). unfold setText.
    destruct (lastRealNamed t (items cb)) as [item'|] eqn:E'.
    + apply lastRealNamed_Some in E' as (Hin' & Hreal' & Hname').
      destruct (real_item_found cb item' Hr Hin' Hreal') as (_ & (p & Hfound) & _).
      rewrite setSelectedId_getText, Hfound. exact Hname'.
    + exfalso. exact (proj1 (lastRealNamed_None _ _) E' item Hin Hreal Hname).
  - apply (setText_free t d cb E).
Qed.

Lemma X13_witness :
  getText (setText "Green" false (run paletteCalls freshBox)) = "Green".
Proof.
  apply X13_setText_then_getText.
  apply reach_run; [apply reach_new | reflexivity].
Defined.

(** X10.  [clear] empties the store: afterwards there are no items, the
    selected id is 0 and the selected index is -1.  When the label is not
    editable its text is emptied as well; when it is editable [clear]
    touches nothing but the store: the label text and the current id stay,
    and no change message is scheduled, whatever the flag. *)
Theorem X10_clear (cb : ComboBox) (d : bool) :
  items (clear d cb) = []
  /\ getNumItems (clear d cb) = 0
  /\ getSelectedId (clear d cb) = 0
  /\ getSelectedItemIndex (clear d cb) = -1
  /\ (isTextEditable cb = false -> getText (clear d cb) = "")
  /\ (isTextEditable cb = true ->
        clear d cb = set_separatorPending false (set_items [] cb)).
Proof.
  assert (Hitems : items (clear d cb) = []) by apply clear_items.
  split; [exact Hitems|]. split; [|split; [|split; [|split]]].
  - unfold getNumItems. rewrite Hitems. reflexivity.
  - unfold getSelectedId, getItemForId. rewrite Hitems.
    destruct (negb _); reflexivity.
  - unfold getSelectedItemIndex, indexOfItemId. rewrite Hitems. simpl.
    destruct (negb _); reflexivity.
  - unfold isTextEditable, clear, setSelectedItemIndex. simpl. intros ->. simpl.
    rewrite setSelectedId_getText. unfold getItemId, getItemForIndex, getItemForId. simpl.
    reflexivity.
  - unfold isTextEditable, clear. simpl. intros ->. reflexivity.
Qed.

Lemma X10_witness :
  getText (clear false (run (paletteCalls ++ [SetText "Green" false]) freshBox)) = ""
  /\ getText (clear false (run (paletteCalls ++ [SetEditableText true; SetText "Green" false])
                               freshBox)) = "Green".
Proof.
  split.
  - apply (X10_clear (run (paletteCalls ++ [SetText "Green" false]) freshBox) false).
    reflexivity.
  - destruct (X10_clear (run (paletteCalls ++ [SetEditableText true; SetText "Green" false])
                             freshBox) false) as (_ & _ & _ & _ & _ & Hkeep).
    rewrite Hkeep; reflexivity.
Defined.

(** ** The bound value *)

(** X14.  [valueChanged] brings the widget back in step with
    [currentId]: afterwards [lastCurrentId] equals [currentId], which is
    unchanged.  If the two agreed already, nothing happens.  If they did
    not, the label takes the name of the item bearing [currentId] (the
    empty string if there is none), a change message is scheduled, and the
    selected id is [currentId] or, if no item bears it, 0. *)
Theorem X14_valueChanged_resyncs (cb : ComboBox) :
  synced (valueChanged cb)
  /\ currentId (valueChanged cb) = currentId cb
  /\ items (valueChanged cb) = items cb
  /\ (lastCurrentId cb = currentId cb -> valueChanged cb = cb)
  /\ (lastCurrentId cb <> currentId cb ->
        getText (valueChanged cb)
        = match getItemForId (currentId cb) cb with
          | Some (_, item) => name item
          | None => ""
          end
        /\ asyncUpdatePending (valueChanged cb) = true
        /\ getSelectedId (valueChanged cb)
           = match getItemForId (currentId cb) cb with
             | Some _ => currentId cb
             | None => 0
             end).
Proof.
  unfold valueChanged, synced.
  destruct (Z.eqb_spec (lastCurrentId cb) (currentId cb)) as [Heq|Hne]; simpl.
  - split; [exact Heq|]. split; [reflexivity|]. split; [reflexivity|].
    split; [reflexivity|]. intros Hne. contradiction.
  - assert (Hstep : setSelectedId (currentId cb) false cb
                    = set_currentId (currentId cb)
                        (set_lastCurrentId (currentId cb)
                           (set_label
                              (Label_setText
                                 match getItemForId (currentId cb) cb with
                                 | Some (_, item) => name item
                                 | None => ""
                                 end (label (triggerAsyncUpdate cb)))
                              (triggerAsyncUpdate cb)))).
    { unfold setSelectedId. apply Z.eqb_neq in Hne. rewrite Hne. reflexivity. }
    rewrite Hstep. split; [reflexivity|]. split; [reflexivity|]. split; [reflexivity|].
    split; [intros Heq; contradiction|]. intros _.
    split; [reflexivity|]. split; [reflexivity|].
    unfold getSelectedId, getItemForId, getText. simpl.
    fold (getItemForId (currentId cb) cb).
    destruct (getItemForId (currentId cb) cb) as [[p item]|] eqn:E; [|reflexivity].
    simpl. rewrite String.eqb_refl. apply getItemForId_Some in E. tauto.
Qed.

Lemma X14_witness :
  getText (valueChanged (set_currentId 3 (run paletteCalls freshBox))) = "Blue"
  /\ getSelectedId (valueChanged (set_currentId 3 (run paletteCalls freshBox))) = 3
  /\ valueChanged (run paletteCalls freshBox) = run paletteCalls freshBox.
Proof.
  destruct (X14_valueChanged_resyncs (set_currentId 3 (run paletteCalls freshBox)))
    as (_ & _ & _ & _ & Hdiff).
  destruct (X14_valueChanged_resyncs (run paletteCalls freshBox))
    as (_ & _ & _ & Hsame & _).
  destruct Hdiff as (Ht & _ & Hs); [discriminate|].
  split; [exact Ht|]. split; [exact Hs|]. apply Hsame. reflexivity.
Defined.

(** ** Keys *)

(** X15.  The arrow keys step through the items and stop at the ends.
    On a store without reused ids that has at least one item, in a state
    in which [lastCurrentId] equals [currentId] (every state reached
    through the functions of the widget; not so after an outside write to
    the bound value that [valueChanged] has not yet seen), up or left
    moves the selected index one down but not below 0 (so with nothing
    selected it selects the first item), and down or right moves it one up
    but not beyond the last item; the key counts as used.  On an empty
    store the arrow keys leave nothing selected.  A key that is neither an
    arrow nor return changes nothing and is not used, in any state. *)
Theorem X15_keyPressed (key : KeyPress) (cb : ComboBox) :
  (tidyStore (items cb) -> synced cb ->
   isUpKey key || isLeftKey key = true -> 0 < getNumItems cb ->
     snd (keyPressed key cb) = true
     /\ getSelectedItemIndex (fst (keyPressed key cb))
        = Z.max 0 (getSelectedItemIndex cb - 1))
  /\ (tidyStore (items cb) -> synced cb ->
      isUpKey key || isLeftKey key = false -> isDownKey key || isRightKey key = true ->
      0 < getNumItems cb ->
        snd (keyPressed key cb) = true
        /\ getSelectedItemIndex (fst (keyPressed key cb))
           = Z.min (getSelectedItemIndex cb + 1) (getNumItems cb - 1))
  /\ (tidyStore (items cb) -> synced cb ->
      (isUpKey key || isLeftKey key) || (isDownKey key || isRightKey key) = true ->
      getNumItems cb = 0 ->
        getSelectedItemIndex (fst (keyPressed key cb)) = -1
        /\ getSelectedId (fst (keyPressed key cb)) = 0
        /\ getText (fst (keyPressed key cb)) = "")
  /\ (isUpKey key || isLeftKey key = false -> isDownKey key || isRightKey key = false ->
      isReturnKey key = false ->
        keyPressed key cb = (cb, false)).
Proof.
  pose proof (getSelectedItemIndex_bounds cb) as Hb.
  unfold keyPressed. split; [|split; [|split]].
  - intros Htidy Hs -> Hn. simpl. split; [reflexivity|].
    apply (setSelectedItemIndex_inside cb _ false Htidy Hs). lia.
  - intros Htidy Hs -> -> Hn. simpl. split; [reflexivity|].
    apply (setSelectedItemIndex_inside cb _ false Htidy Hs). lia.
  - intros Htidy Hs Hkey Hn.
    destruct (isUpKey key || isLeftKey key); simpl in *.
    + apply (setSelectedItemIndex_outside cb _ false Htidy Hs). lia.
    + rewrite Hkey. simpl.
      apply (setSelectedItemIndex_outside cb _ false Htidy Hs). lia.
  - intros -> -> ->. reflexivity.
Qed.

Lemma X15_witness :
  getSelectedItemIndex (fst (keyPressed arrowUp (run paletteCalls freshBox))) = 0
  /\ getSelectedItemIndex
       (fst (keyPressed arrowDown (run (paletteCalls ++ [SetSelectedId 3 false]) freshBox)))
     = 2
  /\ getSelectedId (fst (keyPressed arrowDown freshBox)) = 0
  /\ keyPressed otherKey (run paletteCalls freshBox) = (run paletteCalls freshBox, false).
Proof.
  assert (Ht1 : tidyStore (items (run paletteCalls freshBox))).
  { apply reach_tidyStore, reach_run; [apply reach_new | reflexivity]. }
  assert (Ht2 : tidyStore (items (run (paletteCalls ++ [SetSelectedId 3 false]) freshBox))).
  { apply reach_tidyStore, reach_run; [apply reach_new | reflexivity]. }
  assert (Ht3 : tidyStore (items freshBox)) by apply reach_tidyStore, reach_new.
  destruct (X15_keyPressed arrowUp (run paletteCalls freshBox)) as (Hup & _ & _ & Hother).
  destruct (X15_keyPressed arrowDown (run (paletteCalls ++ [SetSelectedId 3 false]) freshBox))
    as (_ & Hdown & _ & _).
  destruct (X15_keyPressed arrowDown freshBox) as (_ & _ & Hempty & _).
  destruct (X15_keyPressed otherKey (run paletteCalls freshBox)) as (_ & _ & _ & Hnone).
  destruct (Hup Ht1) as [_ Hup']; try reflexivity.
  destruct (Hdown Ht2) as [_ Hdown']; try reflexivity.
  destruct (Hempty Ht3) as (_ & Hempty' & _); try reflexivity.
  split; [exact Hup'|]. split; [exact Hdown'|]. split; [exact Hempty'|].
  apply Hnone; reflexivity.
Defined.

(** ** The popup and its result *)


Lemma open_then_close (cb : ComboBox) :
  menuActive cb = false -> set_menuActive false (fst (showPopup cb)) = cb.
Proof.
  intros Ha. unfold showPopup. rewrite Ha. simpl.
  destruct cb as [l pend c lc lab ma msg au]. simpl in *. subst ma. reflexivity.
Qed.

(** X16.  While a menu is active [showPopup] does nothing and builds no
    menu, so that opening twice is opening once; and opening the popup and
    dismissing it (result 0) gives back the widget as it was. *)
Theorem X16_popup_reentry_and_cancel (cb : ComboBox) :
  (menuActive cb = true -> showPopup cb = (cb, None))
  /\ showPopup (fst (showPopup cb)) = (fst (showPopup cb), None)
  /\ (menuActive cb = false -> modalStateFinished 0 (fst (showPopup cb)) = cb).
Proof.
  split; [|split].
  - intros Ha. unfold showPopup. rewrite Ha. reflexivity.
  - unfold showPopup. destruct (menuActive cb) eqn:Ha; simpl; [rewrite Ha|]; reflexivity.
  - intros Ha. unfold modalStateFinished. simpl. apply open_then_close, Ha.
Qed.

Lemma X16_witness :
  modalStateFinished 0 (fst (showPopup (run paletteCalls freshBox)))
  = run paletteCalls freshBox
  /\ showPopup (fst (showPopup (run paletteCalls freshBox)))
     = (fst (showPopup (run paletteCalls freshBox)), None).
Proof.
  destruct (X16_popup_reentry_and_cancel (run paletteCalls freshBox)) as (_ & Htwice & Hcancel).
  split; [apply Hcancel; reflexivity | exact Htwice].
Defined.



(** ** Change messages *)

(** X18.  With [dontSendChangeMessage] set, [setSelectedId],
    [setSelectedItemIndex], [setText] and [clear] never schedule a change
    message.  Without it, [setSelectedId] schedules one whenever it
    changes the widget at all. *)
Theorem X18_dontSendChangeMessage (cb : ComboBox) (x i : Z) (t : string) :
  asyncUpdatePending (setSelectedId x true cb) = asyncUpdatePending cb
  /\ asyncUpdatePending (setSelectedItemIndex i true cb) = asyncUpdatePending cb
  /\ asyncUpdatePending (setText t true cb) = asyncUpdatePending cb
  /\ asyncUpdatePending (clear true cb) = asyncUpdatePending cb
  /\ (setSelectedId x false cb = cb
      \/ asyncUpdatePending (setSelectedId x false cb) = true).
Proof.
  assert (Hsel : forall y st, asyncUpdatePending (setSelectedId y true st)
                              = asyncUpdatePending st).
  { intros y st. unfold setSelectedId.
    destruct (negb (lastCurrentId st =? y) || _); reflexivity. }
  split; [apply Hsel|]. split; [apply Hsel|]. split; [|split].
  - unfold setText. destruct (lastRealNamed t (items cb)); [apply Hsel|].
    simpl. destruct (negb _); reflexivity.
  - unfold clear, setSelectedItemIndex. destruct (negb _); [|reflexivity].
    rewrite Hsel. reflexivity.
  - unfold setSelectedId.
    destruct (negb (lastCurrentId cb =? x) || _); [right | left]; reflexivity.
Qed.

Lemma setSelectedId_quiet (y : Z) (e : bool) (st : ComboBox) :
  lastCurrentId st = y ->
  Label_getText (label st)
  = match getItemForId y st with
    | Some (_, item) => name item
    | None => ""
    end ->
  setSelectedId y e st = st.
Proof.
  intros Hl Ht. unfold setSelectedId.
  rewrite Hl, Ht, Z.eqb_refl, String.eqb_refl. reflexivity.
Qed.

Lemma setSelectedId_lastCurrentId (x : Z) (d : bool) (cb : ComboBox) :
  lastCurrentId (setSelectedId x d cb) = x.
Proof.
  unfold setSelectedId.
  destruct (Z.eqb_spec (lastCurrentId cb) x) as [Heq|Hne]; simpl.
  - destruct (negb _); [destruct d; reflexivity | exact Heq].
  - destruct d; reflexivity.
Qed.

Lemma setText_quiet (t : string) (e : bool) (st : ComboBox) :
  lastRealNamed t (items st) = None ->
  currentId st = 0 -> lastCurrentId st = 0 -> getText st = t ->
  setText t e st = st.
Proof.
  intros Hn Hc Hl Ht. unfold setText. rewrite Hn. simpl.
  unfold getText in Ht. rewrite Ht, String.eqb_refl. simpl.
  destruct st as [l pend c lc lab ma msg au]. simpl in *. subst c lc. reflexivity.
Qed.

(** X21.  Selecting what is selected already does nothing: a second
    [setSelectedId] with the same id, and a second [setText] with the same
    text, leave the widget as the first call left it, so that no second
    change message is scheduled. *)
Theorem X21_selecting_twice (cb : ComboBox) (x : Z) (t : string) (d d' : bool) :
  setSelectedId x d' (setSelectedId x d cb) = setSelectedId x d cb
  /\ setText t d' (setText t d cb) = setText t d cb.
Proof.
  assert (Hsel : forall y e e' st,
            setSelectedId y e' (setSelectedId y e st) = setSelectedId y e st).
  { intros y e e' st. apply setSelectedId_quiet.
    - apply setSelectedId_lastCurrentId.
    - rewrite (getItemForId_items y _ st (setSelectedId_items y e st)).
      apply (setSelectedId_getText y e st). }
  split; [apply Hsel|].
  destruct (lastRealNamed t (items cb)) as [item|] eqn:E.
  - unfold setText at 1. rewrite setText_items, E.
    unfold setText. rewrite E. apply Hsel.
  - destruct (setText_free t d cb E) as (Hc & Hl & Ht).
    apply setText_quiet; try assumption. rewrite setText_items. exact E.
Qed.

(** ** The editable flag *)

(** X19.  [setEditableText] makes the label editable or not as asked
    and touches neither the store, the selection nor the label text; a
    second call with the same flag does nothing.  It decides what [clear]
    does to the label: after [setEditableText (b)], [clear] keeps the label
    text if [b] is true and empties it if [b] is false. *)
Theorem X19_setEditableText (cb : ComboBox) (b d : bool) :
  isTextEditable (setEditableText b cb) = b
  /\ setEditableText b (setEditableText b cb) = setEditableText b cb
  /\ items (setEditableText b cb) = items cb
  /\ currentId (setEditableText b cb) = currentId cb
  /\ getText (setEditableText b cb) = getText cb
  /\ getText (clear d (setEditableText b cb)) = if b then getText cb else "".
Proof.
  assert (Hed : isTextEditable (setEditableText b cb) = b).
  { unfold setEditableText, isTextEditable, Label_isEditable.
    destruct (editableOnSingleClick (label cb)) eqn:H1,
             (editableOnDoubleClick (label cb)) eqn:H2, b; simpl; rewrite ?H1, ?H2;
      reflexivity. }
  assert (Htext : getText (setEditableText b cb) = getText cb).
  { unfold setEditableText. destruct (_ || _); reflexivity. }
  split; [exact Hed|]. split; [|split; [|split; [|split]]].
  - unfold setEditableText.
    destruct (editableOnSingleClick (label cb)) eqn:H1,
             (editableOnDoubleClick (label cb)) eqn:H2, b; simpl; rewrite ?H1, ?H2;
      reflexivity.
  - unfold setEditableText. destruct (_ || _); reflexivity.
  - unfold setEditableText. destruct (_ || _); reflexivity.
  - exact Htext.
  - unfold clear, setSelectedItemIndex. simpl.
    change (Label_isEditable (label (setEditableText b cb)))
      with (isTextEditable (setEditableText b cb)).
    rewrite Hed. destruct b; simpl.
    + exact Htext.
    + rewrite setSelectedId_getText. reflexivity.
Qed.

(** ** Ticks in the popup *)

(** X20.  The popup ticks the selected item and nothing else: when no
    item is selected no entry of the menu is ticked, and on a store without
    reused ids at most one entry is ticked. *)
Theorem X20_popup_ticks (cb : ComboBox) :
  (reachable cb -> getSelectedId cb = 0 ->
     forall i r t a k,
       (buildMenu cb : list MenuEntry) !! i = Some (MenuItem r t a k) -> k = false)
  /\ (reach freshIds cb ->
        forall i j r1 t1 a1 r2 t2 a2,
          (buildMenu cb : list MenuEntry) !! i = Some (MenuItem r1 t1 a1 true) ->
          (buildMenu cb : list MenuEntry) !! j = Some (MenuItem r2 t2 a2 true) ->
          i = j).
Proof.
  assert (Hentry : forall i r t a k,
            (buildMenu cb : list MenuEntry) !! i = Some (MenuItem r t a k) ->
            k = false
            \/ exists item, items cb !! i = Some item /\ isRealItem item = true
                            /\ itemId item = getSelectedId cb).
  { intros i r t a k H. rewrite buildMenu_spec in H.
    destruct (items cb) as [|first others] eqn:E.
    - destruct i; simpl in H; [inversion H; auto | discriminate].
    - rewrite <- E in *. rewrite list_lookup_fmap in H.
      destruct (items cb !! i) as [item|] eqn:Hi; [|discriminate].
      simpl in H. unfold menuEntryOf in H.
      destruct (isSeparator item) eqn:Hsep; [discriminate|].
      destruct (isHeading item) eqn:Hhead; [discriminate|].
      inversion H; subst.
      destruct (Z.eqb_spec (itemId item) (getSelectedId cb)) as [Heq|Hne]; [|auto].
      right. exists item. split; [reflexivity|]. split; [|exact Heq].
      unfold isRealItem. unfold isSeparator in Hsep. rewrite Hhead, Hsep. reflexivity. }
  split.
  - intros Hr Hsel i r t a k H.
    destruct (Hentry i r t a k H) as [Hk | (item & Hi & Hreal & Hid)]; [exact Hk|].
    exfalso. apply (wellFormed_real_nonzero item); [| exact Hreal | congruence].
    apply (proj1 (Forall_lookup _ _) (reachable_wellFormed cb Hr) _ _ Hi).
  - intros Hr i j r1 t1 a1 r2 t2 a2 H1 H2.
    destruct (Hentry _ _ _ _ _ H1) as [Hk | (x & Hi & Hreal & Hid)]; [discriminate|].
    destruct (Hentry _ _ _ _ _ H2) as [Hk | (y & Hj & _ & Hid')]; [discriminate|].
    apply (reach_uniqueIds cb Hr i j x y Hi Hj); [congruence|].
    apply (wellFormed_real_nonzero x); [|exact Hreal].
    apply (proj1 (Forall_lookup _ _)
             (reachable_wellFormed cb (reach_weaken _ _ Hr)) _ _ Hi).
Qed.

Lemma X20_witness :
  getSelectedId (run paletteCalls freshBox) = 0
  /\ (buildMenu (run paletteCalls freshBox) : list MenuEntry) !! 1%nat
     = Some (MenuItem 2 "Green" true false)
  /\ (buildMenu (run (paletteCalls ++ [SetSelectedId 2 false]) freshBox) : list MenuEntry)
     !! 1%nat = Some (MenuItem 2 "Green" true true)
  /\ 1%nat = 1%nat.
Proof.
  split; [reflexivity|]. split; [reflexivity|]. split; [reflexivity|].
  assert (Hr : reach freshIds (run (paletteCalls ++ [SetSelectedId 2 false]) freshBox))
    by (apply reach_run; [apply reach_new | reflexivity]).
  assert (Hnone : false = false).
  { apply (proj1 (X20_popup_ticks (run paletteCalls freshBox))
                 (reach_run anyCall paletteCalls freshBox (reach_new _ _ _) eq_refl)
                 eq_refl 1%nat 2 "Green" true false).
    reflexivity. }
  apply (proj2 (X20_popup_ticks (run (paletteCalls ++ [SetSelectedId 2 false]) freshBox))
               Hr 1%nat 1%nat 2 "Green" true 2 "Green" true); reflexivity.
Defined.

(** ** Refilling an editable box *)

(** X22.  With an editable label [clear] does not forget the
    selection: if an item with a non-empty name was selected, then after
    [clear] nothing is selected, and adding an item with the same text and
    id again makes it the selection again, without any call that
    selects. *)
Theorem X22_editable_clear_keeps_selection (cb : ComboBox) (d : bool) :
  isTextEditable cb = true ->
  getSelectedId cb <> 0 ->
  isNotEmpty (getText cb) = true ->
  getSelectedId (clear d cb) = 0
  /\ getSelectedId (addItem (getText cb) (getSelectedId cb) (clear d cb))
     = getSelectedId cb.
Proof.
  intros He Hsel Ht.
  assert (Hclear : clear d cb = set_separatorPending false (set_items [] cb)).
  { unfold isTextEditable in He. unfold clear. simpl. rewrite He. reflexivity. }
  assert (Hcur : getSelectedId cb = currentId cb).
  { unfold getSelectedId in *.
    destruct (getItemForId (currentId cb) cb) as [[p item]|] eqn:E; [|contradiction].
    destruct (String.eqb (getText cb) (name item)); [|contradiction].
    apply getItemForId_Some in E. tauto. }
  rewrite Hclear. split.
  { unfold getSelectedId, getItemForId. simpl. destruct (negb _); reflexivity. }
  rewrite Hcur in *. apply Z.eqb_neq in Hsel.
  unfold addItem, flushSeparator. rewrite Ht, Hsel. simpl.
  unfold getSelectedId, getItemForId, getText. simpl. rewrite Hsel. simpl.
  rewrite Z.eqb_refl, String.eqb_refl. reflexivity.
Qed.

Lemma X22_witness :
  getSelectedId
    (clear false (run (paletteCalls ++ [SetEditableText true; SetSelectedId 2 false])
                      freshBox)) = 0
  /\ getSelectedId
       (addItem "Green" 2
          (clear false (run (paletteCalls ++ [SetEditableText true; SetSelectedId 2 false])
                            freshBox))) = 2.
Proof.
  apply (X22_editable_clear_keeps_selection
           (run (paletteCalls ++ [SetEditableText true; SetSelectedId 2 false]) freshBox)
           false).
  - reflexivity.
  - discriminate.
  - reflexivity.
Defined.
